(** * chrome-extension-boilerplate: typed messaging and settings storage

    A shallow embedding of [src/lib/storage.ts], [src/lib/messaging.ts],
    the handler table of [src/background/index.ts] and the message listener
    of [src/content/index.ts].

    JavaScript objects are finite maps from property names to values, object
    spread is map union, [async] functions are computations in a state and
    exception monad over the browser state whose completion settles the
    promise they return.  The browser (storage area, tab list, transport to
    the tabs, clock) is the state the computations run on.

    What the embedding leaves to the host: the calls on [chrome.storage]
    and [chrome.tabs.query] succeed, while [chrome.tabs.sendMessage] may
    reject (the program catches that); an event (a message, a lifecycle
    event, a call of the storage module) runs to its end before the next
    one starts; [console.log] is not part of the state, and the context
    menu is a state of its own beside the browser state. *)

From stdpp Require Import gmap strings list fin_maps pretty.

Set Warnings "-register-all".

(* ===================================================================== *)
(** * JavaScript values *)
(* ===================================================================== *)

(** The values that cross a message port or live in [chrome.storage]:
    JSON-like data, plus [undefined].  Numbers are the integers (tab ids,
    counters, epoch milliseconds).  A character of a string stands for
    one code unit of the JavaScript string, which it is for ASCII text,
    the only text the program itself writes. *)
Inductive JSValue : Type :=
| JUndefined
| JNull
| JBool (b : bool)
| JNum (n : Z)
| JStr (s : string)
| JObj (fields : gmap string JSValue).

(** What a [throw] or a rejected promise carries: an [Error] instance with
    its [message], or any other value. *)
Inductive Thrown : Type :=
| ErrorInstance (message : string)
| NonError (v : JSValue).

(** Completion of a synchronous piece of code. *)
Inductive Outcome (A : Type) : Type :=
| Ok (a : A)
| Raise (e : Thrown).
Arguments Ok {A} a.
Arguments Raise {A} e.

(** State of a promise once the event loop has run: fulfilled, rejected, or
    never settled. *)
Inductive Settlement (A : Type) : Type :=
| Fulfilled (a : A)
| Rejected (e : Thrown)
| Pending.
Arguments Fulfilled {A} a.
Arguments Rejected {A} e.
Arguments Pending {A}.

(** [!v] is [negb (truthy v)]. *)
Definition truthy (v : JSValue) : bool :=
  match v with
  | JUndefined | JNull => false
  | JBool b => b
  | JNum n => negb (n =? 0)%Z
  | JStr s => negb (String.eqb s "")
  | JObj _ => true
  end.

(** [truthy] on a number, for [tab.id]. *)
Definition truthy_num (n : Z) : bool := negb (n =? 0)%Z.

Definition nullish (v : JSValue) : bool :=
  match v with
  | JUndefined | JNull => true
  | _ => false
  end.

(** [v ?? d] *)
Definition nullish_coalesce (v d : JSValue) : JSValue :=
  if nullish v then d else v.

(** The own enumerable properties that a spread [{...v}] copies: those of an
    object, the indexed characters of a string, nothing for the other
    primitives. *)
Definition own_props (v : JSValue) : gmap string JSValue :=
  match v with
  | JObj o => o
  | JStr s =>
      list_to_map
        (imap (λ i c, (pretty i, JStr (String c EmptyString)))
              (String.list_ascii_of_string s))
  | _ => ∅
  end.

(** [{ ...a, ...b }]: the properties of [b] win. *)
Definition spread2 (a b : JSValue) : JSValue :=
  JObj (own_props b ∪ own_props a).

(** [{ ...a, k: v }] *)
Definition spread_set (a : JSValue) (k : string) (v : JSValue) : JSValue :=
  JObj (<[k := v]> (own_props a)).

(** Property read [v.k] for the property names this program reads off a
    payload ([enabled], [data]), none of which a primitive wrapper or
    [Object.prototype] defines: a [TypeError] on [undefined] and [null],
    the own property of an object, [undefined] otherwise. *)
Definition get_prop (v : JSValue) (k : string) : Outcome JSValue :=
  match v with
  | JUndefined =>
      Raise (ErrorInstance
        ("Cannot read properties of undefined (reading '" +:+ k +:+ "')"))
  | JNull =>
      Raise (ErrorInstance
        ("Cannot read properties of null (reading '" +:+ k +:+ "')"))
  | JObj o => Ok (default JUndefined (o !! k))
  | _ => Ok JUndefined
  end.

(* ===================================================================== *)
(** * Messages and the browser *)
(* ===================================================================== *)

(** [Message]: [{ type, payload }]. *)
Record Message : Type := mkMessage {
  type : string;
  payload : JSValue;
}.

(** [MessageResponse]: [{ success, data?, error? }]. *)
Record MessageResponse : Type := mkResponse {
  success : bool;
  data : option JSValue;
  error : option string;
}.

(** [chrome.tabs.Tab], the fields the program reads, and the two the
    queries filter on. *)
Record Tab : Type := mkTab {
  tab_id : option Z;
  tab_url : option string;
  tab_title : option string;
  tab_active : bool;
  tab_currentWindow : bool;
}.

(** [chrome.runtime.MessageSender] *)
Record MessageSender : Type := mkSender {
  sender_tab : option Tab;
}.

(** The browser as the extension sees it. *)
Record World : Type := mkWorld {
  (** [chrome.storage.local] *)
  storage : gmap string JSValue;
  (** the open tabs, in the order [chrome.tabs.query] lists them *)
  tabs : list Tab;
  (** what [chrome.tabs.sendMessage] to a tab settles with: the response
      of the listener there, or the rejection when nothing listens *)
  transport : Z → Message → Outcome MessageResponse;
  (** [Date.now()] *)
  now : Z;
  (** every [chrome.tabs.sendMessage] attempted so far, oldest first *)
  sent : list (Z * Message);
}.

Definition with_storage (s : gmap string JSValue) (w : World) : World :=
  mkWorld s (tabs w) (transport w) (now w) (sent w).

Definition with_sent (l : list (Z * Message)) (w : World) : World :=
  mkWorld (storage w) (tabs w) (transport w) (now w) l.

Definition with_now (t : Z) (w : World) : World :=
  mkWorld (storage w) (tabs w) (transport w) t (sent w).

(* ===================================================================== *)
(** * Computations *)
(* ===================================================================== *)

(** Code that runs against the browser and returns or throws.  The body of
    an [async] function is such a computation: every [await] in the program
    is on a host call that settles, so the body runs to its end. *)
Definition M (A : Type) : Type := World → Outcome A * World.

Global Instance M_ret : MRet M := λ A a w, (Ok a, w).

Global Instance M_bind : MBind M := λ A B k m w,
  match m w with
  | (Ok a, w') => k a w'
  | (Raise e, w') => (Raise e, w')
  end.

(** An expression that may throw, evaluated in place. *)
Definition lift {A} (o : Outcome A) : M A := λ w, (o, w).

(** [try { body } catch (error) { handler }] *)
Definition try_catch {A} (body : M A) (handler : Thrown → M A) : M A :=
  λ w, match body w with
       | (Ok a, w') => (Ok a, w')
       | (Raise e, w') => handler e w'
       end.

(** [for (const x of xs) { body }] *)
Fixpoint for_of {A} (xs : list A) (body : A → M unit) : M unit :=
  match xs with
  | [] => mret tt
  | x :: rest => body x ;; for_of rest body
  end.

(** The state of the promise an [async] function returns. *)
Definition settle {A} (o : Outcome A) : Settlement A :=
  match o with
  | Ok a => Fulfilled a
  | Raise e => Rejected e
  end.

(* ===================================================================== *)
(** * Host calls *)
(* ===================================================================== *)

Definition chrome_storage_local_get (key : string) : M (gmap string JSValue) :=
  λ w, (Ok (match storage w !! key with
            | Some v => {[ key := v ]}
            | None => ∅
            end), w).

Definition chrome_storage_local_get_all : M (gmap string JSValue) :=
  λ w, (Ok (storage w), w).

Definition chrome_storage_local_set (items : gmap string JSValue) : M unit :=
  λ w, (Ok tt, with_storage (items ∪ storage w) w).

Definition chrome_storage_local_remove (key : string) : M unit :=
  λ w, (Ok tt, with_storage (delete key (storage w)) w).

Definition chrome_storage_local_clear : M unit :=
  λ w, (Ok tt, with_storage ∅ w).

(** [chrome.tabs.query(q)]; an absent filter field matches every tab. *)
Record QueryInfo : Type := mkQuery {
  q_active : option bool;
  q_currentWindow : option bool;
}.

Definition query_field (q : option bool) (b : bool) : bool :=
  match q with
  | Some want => Bool.eqb want b
  | None => true
  end.

Definition tab_matches (q : QueryInfo) (t : Tab) : bool :=
  query_field (q_active q) (tab_active t)
  && query_field (q_currentWindow q) (tab_currentWindow t).

Fixpoint select_tabs (q : QueryInfo) (ts : list Tab) : list Tab :=
  match ts with
  | [] => []
  | t :: rest =>
      if tab_matches q t then t :: select_tabs q rest else select_tabs q rest
  end.

Definition chrome_tabs_query (q : QueryInfo) : M (list Tab) :=
  λ w, (Ok (select_tabs q (tabs w)), w).

Definition chrome_tabs_sendMessage (tabId : Z) (message : Message)
  : M MessageResponse :=
  λ w, (transport w tabId message, with_sent (sent w ++ [(tabId, message)]) w).

Definition Date_now : M Z := λ w, (Ok (now w), w).

(* ===================================================================== *)
(** * src/lib/storage.ts *)
(* ===================================================================== *)

(** [result[key]]: the stored value, [undefined] when the key is absent. *)
Definition getStorage (key : string) : M JSValue :=
  result ← chrome_storage_local_get key;
  mret (default JUndefined (result !! key)).

Definition setStorage (key : string) (value : JSValue) : M unit :=
  chrome_storage_local_set {[ key := value ]}.

Definition removeStorage (key : string) : M unit :=
  chrome_storage_local_remove key.

Definition getAllStorage : M (gmap string JSValue) :=
  chrome_storage_local_get_all.

Definition clearStorage : M unit :=
  chrome_storage_local_clear.

Definition defaultSettings : JSValue :=
  JObj {[ "enabled" := JBool true;
          "theme" := JStr "system";
          "notifications" := JBool true ]}.

Definition initializeStorage : M unit :=
  settings ← getStorage "settings";
  (if negb (truthy settings)
   then setStorage "settings" defaultSettings
   else mret tt) ;;
  userData ← getStorage "userData";
  if negb (truthy userData)
  then
    t ← Date_now;
    setStorage "userData"
      (JObj {[ "lastVisit" := JNum t; "visitCount" := JNum 0 ]})
  else mret tt.

(* ===================================================================== *)
(** * src/lib/messaging.ts *)
(* ===================================================================== *)

(** [error instanceof Error ? error.message : "Unknown error"] *)
Definition error_text (e : Thrown) : string :=
  match e with
  | ErrorInstance message => message
  | NonError _ => "Unknown error"
  end.

Definition failure (text : string) : MessageResponse :=
  {| success := false; data := None; error := Some text |}.

Definition sendToTab (tabId : Z) (type : string) (payload : JSValue)
  : M MessageResponse :=
  try_catch
    (response ← chrome_tabs_sendMessage tabId (mkMessage type payload);
     mret response)
    (λ error, mret (failure (error_text error))).

(** [const [tab] = ...; tab?.id]: the id of the first tab listed, when
    there is a tab and it has one. *)
Definition first_tab_id (ts : list Tab) : option Z :=
  head ts ≫= tab_id.

Definition sendToActiveTab (type : string) (payload : JSValue)
  : M MessageResponse :=
  ts ← chrome_tabs_query (mkQuery (Some true) (Some true));
  match first_tab_id ts with
  | Some n =>
      if negb (truthy_num n)
      then mret (failure "No active tab found")
      else sendToTab n type payload
  | None => mret (failure "No active tab found")
  end.

(** What a handler gives back to its caller: a plain value or a promise,
    the latter with the way it settles. *)
Inductive Returned : Type :=
| Plain (v : JSValue)
| Promise (p : Settlement JSValue).

(** A handler [(payload, sender) => Promise<R> | R]; [Raise] is a throw
    before it returns. *)
Definition Handler : Type := JSValue → MessageSender → M Returned.

(** An [async] function: it always returns a promise, rejected when the
    body throws. *)
Definition async (body : M JSValue) : M Returned :=
  λ w, let '(o, w') := body w in (Ok (Promise (settle o)), w').

(** [Promise.resolve(x)] *)
Definition Promise_resolve (x : Returned) : Settlement JSValue :=
  match x with
  | Plain v => Fulfilled v
  | Promise p => p
  end.

(** A callback of the promise chain: its completion and the responses it
    handed to [sendResponse], in order. *)
Definition Reply (A : Type) : Type := Outcome A * list MessageResponse.

(** [sendResponse(r)]: the reply port takes the response. *)
Definition sendResponse (r : MessageResponse) : Reply unit := (Ok tt, [r]).

(** [p.then(f)] *)
Definition promise_then {A B} (p : Settlement A) (f : A → Reply B)
  : Settlement B * list MessageResponse :=
  match p with
  | Fulfilled a => let '(o, log) := f a in (settle o, log)
  | Rejected e => (Rejected e, [])
  | Pending => (Pending, [])
  end.

(** [p.catch(g)] *)
Definition promise_catch {A} (p : Settlement A) (g : Thrown → Reply A)
  : Settlement A * list MessageResponse :=
  match p with
  | Fulfilled a => (Fulfilled a, [])
  | Rejected e => let '(o, log) := g e in (settle o, log)
  | Pending => (Pending, [])
  end.

(** A [chrome.runtime.onMessage] listener run on one inbound message, over
    a state [S]: what the listener returned (or the exception that left
    it), every [sendResponse] call made for the message, and the state
    after. *)
Definition Listener (S : Type) : Type :=
  Message → MessageSender → S → (Outcome bool * list MessageResponse) * S.

(** The [TypeError] of [ToObject(undefined)], and the one of a call of a
    value that is not a function.  The wording is the engine's. *)
Definition cannot_convert : Thrown :=
  ErrorInstance "Cannot convert undefined or null to object".

Definition not_a_function : Thrown :=
  ErrorInstance "handler is not a function".

(** The properties every object literal inherits from [Object.prototype],
    each as what the call [handler(payload, sender)] does with it.  The
    call is a plain call in module code, so the built-in runs with [this]
    undefined: [toString] returns ["[object Undefined]"]; [constructor] is
    [Object(payload)], a new empty object for [undefined] and [null], the
    payload itself when it is an object and else its wrapper, the object
    of the properties [own_props] lists; [isPrototypeOf] returns [false]
    for a payload that is not an object before it looks at [this]; the
    other functions convert [this] to an object first and throw;
    [__proto__] is the prototype object itself, truthy and not a
    function, so the call throws. *)
Definition Object_prototype (name : string) : option Handler :=
  if String.eqb name "toString"
  then Some (λ _ _, mret (Plain (JStr "[object Undefined]")))
  else if String.eqb name "constructor"
  then Some (λ payload _,
               mret (Plain (if nullish payload then JObj ∅
                            else JObj (own_props payload))))
  else if String.eqb name "isPrototypeOf"
  then Some (λ payload _,
               match payload with
               | JObj _ => lift (Raise cannot_convert)
               | _ => mret (Plain (JBool false))
               end)
  else if String.eqb name "valueOf"
          || String.eqb name "toLocaleString"
          || String.eqb name "hasOwnProperty"
          || String.eqb name "propertyIsEnumerable"
          || String.eqb name "__defineGetter__"
          || String.eqb name "__defineSetter__"
          || String.eqb name "__lookupGetter__"
          || String.eqb name "__lookupSetter__"
  then Some (λ _ _, lift (Raise cannot_convert))
  else if String.eqb name "__proto__"
  then Some (λ _ _, lift (Raise not_a_function))
  else None.

(** [handlers[type]]: the own property of the table, and without one the
    property of that name on the prototype chain. *)
Definition handler_for (handlers : gmap string Handler) (type : string)
  : option Handler :=
  match handlers !! type with
  | Some handler => Some handler
  | None => Object_prototype type
  end.

(** [createMessageHandler(handlers)]: the listener it registers.  The map
    [handlers] holds the own properties of the table. *)
Definition createMessageHandler (handlers : gmap string Handler)
  : Listener World :=
  λ message sender w,
    match handler_for handlers (type message) with
    | Some handler =>
        match handler (payload message) sender w with
        | (Ok x, w') =>
            let '(p, log1) :=
              promise_then (Promise_resolve x)
                (λ data, sendResponse
                   {| success := true; data := Some data; error := None |}) in
            let '(_, log2) :=
              promise_catch p
                (λ error, sendResponse (failure (error_text error))) in
            ((Ok true, log1 ++ log2), w')
        | (Raise e, w') => ((Raise e, []), w')
        end
    | None => ((Ok false, []), w)
    end.

(* ===================================================================== *)
(** * src/background/index.ts *)
(* ===================================================================== *)

Definition GET_TAB_INFO_handler : Handler :=
  λ _payload sender,
    async (
      let tab := sender_tab sender in
      mret (JObj {[ "url" := JStr (default "" (tab ≫= tab_url));
                    "title" := JStr (default "" (tab ≫= tab_title)) ]})).

Definition GET_SETTINGS_handler : Handler :=
  λ _payload _sender,
    async (
      settings ← getStorage "settings";
      mret (nullish_coalesce settings defaultSettings)).

Definition UPDATE_SETTINGS_handler : Handler :=
  λ payload _sender,
    async (
      stored ← getStorage "settings";
      let currentSettings := nullish_coalesce stored defaultSettings in
      let newSettings := spread2 currentSettings payload in
      setStorage "settings" newSettings ;;
      mret (JObj {[ "success" := JBool true ]})).

Definition state_changed (enabled : JSValue) : Message :=
  mkMessage "EXTENSION_STATE_CHANGED" (JObj {[ "enabled" := enabled ]}).

(** The body of the fan-out loop of [TOGGLE_EXTENSION]. *)
Definition notify_tab (payload : JSValue) (tab : Tab) : M unit :=
  match tab_id tab with
  | Some n =>
      if truthy_num n
      then
        try_catch
          (enabled ← lift (get_prop payload "enabled");
           chrome_tabs_sendMessage n (state_changed enabled) ;;
           mret tt)
          (λ _, mret tt)
      else mret tt
  | None => mret tt
  end.

Definition TOGGLE_EXTENSION_handler : Handler :=
  λ payload _sender,
    async (
      stored ← getStorage "settings";
      let currentSettings := nullish_coalesce stored defaultSettings in
      enabled ← lift (get_prop payload "enabled");
      setStorage "settings" (spread_set currentSettings "enabled" enabled) ;;
      tabs ← chrome_tabs_query (mkQuery None None);
      for_of tabs (notify_tab payload) ;;
      mret (JObj {[ "success" := JBool true ]})).

Definition CONTENT_ACTION_handler : Handler :=
  λ payload _sender,
    async (
      result ← lift (get_prop payload "data");
      mret (JObj {[ "success" := JBool true; "result" := result ]})).

(** The table the background worker passes to [createMessageHandler]. *)
Definition background_handlers : gmap string Handler :=
  {[ "GET_TAB_INFO" := GET_TAB_INFO_handler;
     "GET_SETTINGS" := GET_SETTINGS_handler;
     "UPDATE_SETTINGS" := UPDATE_SETTINGS_handler;
     "TOGGLE_EXTENSION" := TOGGLE_EXTENSION_handler;
     "CONTENT_ACTION" := CONTENT_ACTION_handler ]}.

Definition background_listener : Listener World :=
  createMessageHandler background_handlers.

(** The first listener on [chrome.runtime.onInstalled], the one that works
    on the store: only a fresh install initialises it.  The second
    listener is [onInstalled_contextMenu] below. *)
Inductive OnInstalledReason : Type :=
| INSTALL | UPDATE | CHROME_UPDATE | SHARED_MODULE_UPDATE.

Definition onInstalled (reason : OnInstalledReason) : M unit :=
  match reason with
  | INSTALL => initializeStorage
  | _ => mret tt
  end.

Definition onStartup : M unit := initializeStorage.

(* ===================================================================== *)
(** * src/content/index.ts *)
(* ===================================================================== *)

Definition succeeded (d : option JSValue) : MessageResponse :=
  {| success := true; data := d; error := None |}.

(** The listener of the content script.  The page it runs in and the two
    helpers that edit the page ([handleContentAction],
    [handleExtensionStateChange]) are taken as given: a helper maps the
    page to its result, or to the exception it threw, and the page
    after. *)
Section ContentScript.
Variable Page : Type.
Variable location_href : Page → string.
Variable document_title : Page → string.
Variable handleContentAction : JSValue → Page → Outcome JSValue * Page.
Variable handleExtensionStateChange : JSValue → Page → Outcome unit * Page.

Definition content_listener : Listener Page :=
  λ message _sender pg,
    if String.eqb (type message) "CONTENT_ACTION" then
      match handleContentAction (payload message) pg with
      | (Ok result, pg') =>
          ((Ok true, [succeeded (Some result)]), pg')
      | (Raise e, pg') => ((Raise e, []), pg')
      end
    else if String.eqb (type message) "EXTENSION_STATE_CHANGED" then
      match get_prop (payload message) "enabled" with
      | Ok enabled =>
          match handleExtensionStateChange enabled pg with
          | (Ok _, pg') => ((Ok true, [succeeded None]), pg')
          | (Raise e, pg') => ((Raise e, []), pg')
          end
      | Raise e => ((Raise e, []), pg)
      end
    else if String.eqb (type message) "GET_TAB_INFO" then
      ((Ok true,
        [succeeded (Some (JObj {[ "url" := JStr (location_href pg);
                                  "title" := JStr (document_title pg) ]}))]),
       pg)
    else
      ((Ok true, [failure "Unknown message type"]), pg).
End ContentScript.

(* ===================================================================== *)
(** * Shapes *)
(* ===================================================================== *)

Definition is_boolean (v : JSValue) : bool :=
  match v with
  | JBool _ => true
  | _ => false
  end.

(** ["light" | "dark" | "system"] *)
Definition is_theme (v : JSValue) : bool :=
  match v with
  | JStr s => String.eqb s "light" || String.eqb s "dark" || String.eqb s "system"
  | _ => false
  end.

(** A property of the settings record with a value of its declared type. *)
Definition settings_field (k : string) (v : JSValue) : bool :=
  if String.eqb k "enabled" then is_boolean v
  else if String.eqb k "theme" then is_theme v
  else if String.eqb k "notifications" then is_boolean v
  else false.

Definition fields_typed (o : gmap string JSValue) : bool :=
  bool_decide (map_Forall (λ k v, settings_field k v = true) o).

(** [Partial<StorageSchema["settings"]>]: an object with some of the three
    fields. *)
Definition is_partial_settings (v : JSValue) : bool :=
  match v with
  | JObj o => fields_typed o
  | _ => false
  end.

Definition has_field (o : gmap string JSValue) (k : string) : bool :=
  bool_decide (is_Some (o !! k)).

(** [StorageSchema["settings"]]: an object with exactly the three fields. *)
Definition is_settings (v : JSValue) : bool :=
  match v with
  | JObj o =>
      fields_typed o
      && has_field o "enabled" && has_field o "theme"
      && has_field o "notifications"
  | _ => false
  end.

(** The settings record is not there, or it is a complete record. *)
Definition settings_inv (w : World) : Prop :=
  match storage w !! "settings" with
  | Some v => is_settings v = true
  | None => True
  end.

(** The settings in force: the stored record, the defaults without one. *)
Definition current_settings (w : World) : JSValue :=
  nullish_coalesce (default JUndefined (storage w !! "settings"))
                   defaultSettings.

(** A response that reports no settings record: no [data], or
    [undefined]. *)
Definition absent_result (r : MessageResponse) : bool :=
  match data r with
  | None | Some JUndefined => true
  | Some _ => false
  end.

(** The tabs the fan-out can address: those with a (truthy) id. *)
Definition addressable (ts : list Tab) : list Z :=
  omap (λ t, n ← tab_id t; if truthy_num n then Some n else None) ts.

Definition get_settings_request : Message :=
  mkMessage "GET_SETTINGS" JUndefined.

Definition update_settings_request (p : JSValue) : Message :=
  mkMessage "UPDATE_SETTINGS" p.

Definition toggle_request (b : bool) : Message :=
  mkMessage "TOGGLE_EXTENSION" (JObj {[ "enabled" := JBool b ]}).

(** The three kinds the content script answers. *)
Definition content_kind (k : string) : bool :=
  String.eqb k "CONTENT_ACTION" || String.eqb k "EXTENSION_STATE_CHANGED"
  || String.eqb k "GET_TAB_INFO".

(** The [message] property of a failure, when it has one that is a
    string. *)
Definition thrown_message (e : Thrown) : option string :=
  match e with
  | ErrorInstance m => Some m
  | NonError (JObj o) =>
      match o !! "message" with
      | Some (JStr m) => Some m
      | _ => None
      end
  | NonError _ => None
  end.

(** A value of one of the record types of [StorageSchema] is an object. *)
Definition schema_value (v : JSValue) : bool :=
  match v with
  | JObj _ => true
  | _ => false
  end.

(** What [initializeStorage] leaves in the store. *)
Definition initial_store (t : Z) (s : gmap string JSValue)
  : gmap string JSValue :=
  let s1 :=
    if truthy (default JUndefined (s !! "settings")) then s
    else <["settings" := defaultSettings]> s in
  if truthy (default JUndefined (s !! "userData")) then s1
  else <["userData" :=
           JObj {[ "lastVisit" := JNum t; "visitCount" := JNum 0 ]}]> s1.

(** The store after [initializeStorage] has run. *)
Definition initialized (w : World) : Prop :=
  truthy (default JUndefined (storage w !! "settings")) = true
  ∧ truthy (default JUndefined (storage w !! "userData")) = true.

(* ===================================================================== *)
(** * Operations on the store *)
(* ===================================================================== *)

(** The events that run code of the extension against the store: a message
    to the background worker, the two lifecycle events, and the calls of
    the storage module. *)
Inductive Operation : Type :=
| Request (message : Message) (sender : MessageSender)
| Installed (reason : OnInstalledReason)
| Startup
| StoreSet (key : string) (value : JSValue)
| StoreRemove (key : string)
| StoreClear.

Definition run_op (w : World) (op : Operation) : World :=
  match op with
  | Request message sender => snd (background_listener message sender w)
  | Installed reason => snd (onInstalled reason w)
  | Startup => snd (onStartup w)
  | StoreSet key value => snd (setStorage key value w)
  | StoreRemove key => snd (removeStorage key w)
  | StoreClear => snd (clearStorage w)
  end.

(** [{ enabled: boolean }] *)
Definition is_toggle_payload (v : JSValue) : bool :=
  match v with
  | JObj o =>
      match o !! "enabled" with
      | Some (JBool _) => true
      | _ => false
      end
  | _ => false
  end.

(** The operation passes the type checker: the payload of a request that
    writes the settings has the request type of its kind in
    [MessageTypes], and a value stored under [settings] has the type
    [StorageSchema] gives that key. *)
Definition op_typed (op : Operation) : bool :=
  match op with
  | Request message _ =>
      if String.eqb (type message) "UPDATE_SETTINGS"
      then is_partial_settings (payload message)
      else if String.eqb (type message) "TOGGLE_EXTENSION"
      then is_toggle_payload (payload message)
      else true
  | StoreSet key value =>
      if String.eqb key "settings" then is_settings value else true
  | _ => true
  end.

(* ===================================================================== *)
(** * Sample inputs *)
(* ===================================================================== *)

(** Tab 7 has a content script that answers; nothing listens elsewhere. *)
Definition sample_transport (tabId : Z) (_ : Message)
  : Outcome MessageResponse :=
  if (tabId =? 7)%Z then Ok (succeeded None)
  else Raise (ErrorInstance
    "Could not establish connection. Receiving end does not exist.").

Definition sample_tabs : list Tab :=
  [ mkTab (Some 4%Z) (Some "chrome://extensions/") (Some "Extensions")
          false true;
    mkTab None None None false false;
    mkTab (Some 7%Z) (Some "https://example.org/") (Some "Example")
          true true ].

Definition dark_settings : JSValue :=
  JObj {[ "enabled" := JBool false;
          "theme" := JStr "dark";
          "notifications" := JBool true ]}.

Definition sample_world : World :=
  mkWorld {[ "settings" := dark_settings ]} sample_tabs sample_transport
          1700000000000 [].

Definition fresh_world : World :=
  mkWorld ∅ sample_tabs sample_transport 1700000000000 [].

Definition popup : MessageSender := mkSender None.

(** A handler whose promise rejects with a plain object, not an [Error]:
    [async () => { throw { message: "quota exceeded" }; }]. *)
Definition quota_failure : Thrown :=
  NonError (JObj {[ "message" := JStr "quota exceeded" ]}).

Definition rejecting_handler : Handler :=
  λ _payload _sender, async (lift (Raise quota_failure)).

(** A handler that is not [async] and throws:
    [() => { throw new Error("boom"); }]. *)
Definition throwing_handler : Handler :=
  λ _payload _sender, lift (Raise (ErrorInstance "boom")).

(** A table that registers one kind only. *)
Definition settings_only : gmap string Handler :=
  {[ "GET_SETTINGS" := GET_SETTINGS_handler ]}.

(* ===================================================================== *)
(** * src/lib/messaging.ts: the channel to the background worker *)
(* ===================================================================== *)

(** A response as the value it is: an object with [success] and, when
    present, [data] and [error]. *)
Definition response_value (r : MessageResponse) : JSValue :=
  JObj (<["success" := JBool (success r)]>
          (match data r with
           | Some d => {[ "data" := d ]}
           | None => ∅
           end
           ∪ match error r with
             | Some text => {[ "error" := JStr text ]}
             | None => ∅
             end)).

(** [sendToBackground], over what [chrome.runtime.sendMessage] does with a
    message: a host call that settles with whatever value a listener in
    the background worker passed to [sendResponse] ([undefined] when none
    answered) or rejects, and may change the browser (the listener runs
    there).  The value the call resolves with is returned as it is. *)
Section RuntimeChannel.
Variable chrome_runtime_sendMessage : Message → M JSValue.

Definition sendToBackground (type : string) (payload : JSValue)
  : M JSValue :=
  try_catch
    (response ← chrome_runtime_sendMessage (mkMessage type payload);
     mret response)
    (λ error, mret (response_value (failure (error_text error)))).
End RuntimeChannel.

(* ===================================================================== *)
(** * src/background/index.ts: the context menu *)
(* ===================================================================== *)





(* ===================================================================== *)
(** * src/content/index.ts: the page *)
(* ===================================================================== *)

(** [v?.k] *)
Definition optional_prop (v : JSValue) (k : string) : JSValue :=
  if nullish v then JUndefined
  else match get_prop v k with
       | Ok x => x
       | Raise _ => JUndefined
       end.

(** [classList.add(token)]: a token list holds a token once. *)
Definition classList_add (token : string) (classes : list string)
  : list string :=
  if bool_decide (token ∈ classes) then classes else classes ++ [token].

(** [classList.remove(token)] *)
Definition classList_remove (token : string) (classes : list string)
  : list string :=
  filter (λ c, c ≠ token) classes.

(** The page a content script runs in.  Of the document, the state holds
    what the script edits: the class list of [body], the
    [extension-highlight-style] elements it appended to [head] and the
    [extension-injected-element] containers it appended to [body], each
    list in document order and each element known by the number it got
    when it was created.  The rest of the document is the page's own and
    stays opaque; the page has no element of its own with one of the two
    ids. *)
Section ContentPage.
Variable PageContent : Type.

Record Page : Type := mkPage {
  (** [window.location.href] *)
  page_href : string;
  (** [document.title] *)
  page_title : string;
  (** the document of the page itself *)
  page_content : PageContent;
  (** [document.body.classList] *)
  body_classes : list string;
  (** the highlight styles attached to [head] *)
  highlight_styles : list nat;
  (** the injected containers attached to [body] *)
  injected_elements : list nat;
  (** the number of the next element [document.createElement] makes *)
  next_element : nat;
  (** the styles whose [setTimeout] of 3 s has not fired yet *)
  pending_removals : list nat;
}.

(** [getPageData] reads the document and changes nothing; what it reads
    (meta description, headings, counts of links and images) is the
    page's own. *)
Variable getPageData : Page → JSValue.

Definition with_classes (classes : list string) (pg : Page) : Page :=
  mkPage (page_href pg) (page_title pg) (page_content pg) classes
         (highlight_styles pg) (injected_elements pg) (next_element pg)
         (pending_removals pg).

(** [getElementById(id)?.remove()] for the two ids: the first element
    with the id leaves the document. *)
Definition removeInjectedElements (pg : Page) : Page :=
  mkPage (page_href pg) (page_title pg) (page_content pg) (body_classes pg)
         (tail (highlight_styles pg)) (tail (injected_elements pg))
         (next_element pg) (pending_removals pg).

Definition highlightPage (pg : Page) : Page :=
  let style := next_element pg in
  mkPage (page_href pg) (page_title pg) (page_content pg) (body_classes pg)
         (highlight_styles pg ++ [style]) (injected_elements pg)
         (S (next_element pg)) (pending_removals pg ++ [style]).

Definition injectElement (pg : Page) : Page :=
  let pg1 := removeInjectedElements pg in
  let container := next_element pg1 in
  mkPage (page_href pg1) (page_title pg1) (page_content pg1)
         (body_classes pg1) (highlight_styles pg1)
         (injected_elements pg1 ++ [container])
         (S (next_element pg1)) (pending_removals pg1).

(** The timer of [highlightPage] fires: [style.remove()]. *)
Definition timer_fires (style : nat) (pg : Page) : Page :=
  mkPage (page_href pg) (page_title pg) (page_content pg) (body_classes pg)
         (filter (λ s, s ≠ style) (highlight_styles pg))
         (injected_elements pg) (next_element pg)
         (filter (λ s, s ≠ style) (pending_removals pg)).

(** A click on the close button of a container: [container.remove()]. *)
Definition close_clicked (container : nat) (pg : Page) : Page :=
  mkPage (page_href pg) (page_title pg) (page_content pg) (body_classes pg)
         (highlight_styles pg)
         (filter (λ c, c ≠ container) (injected_elements pg))
         (next_element pg) (pending_removals pg).

Definition handleExtensionStateChange (enabled : JSValue) (pg : Page)
  : Outcome unit * Page :=
  if truthy enabled
  then (Ok tt,
        with_classes (classList_add "extension-active" (body_classes pg)) pg)
  else (Ok tt,
        removeInjectedElements
          (with_classes
             (classList_remove "extension-active" (body_classes pg)) pg)).

Definition handleContentAction (payload : JSValue) (pg : Page)
  : Outcome JSValue * Page :=
  match get_prop payload "action" with
  | Raise e => (Raise e, pg)
  | Ok action =>
      match action with
      | JStr a =>
          if String.eqb a "highlight"
          then (Ok (JObj {[ "highlighted" := JBool true ]}), highlightPage pg)
          else if String.eqb a "getData"
          then (Ok (getPageData pg), pg)
          else if String.eqb a "inject"
          then (Ok (JObj {[ "injected" := JBool true ]}), injectElement pg)
          else (Ok JNull, pg)
      | _ => (Ok JNull, pg)
      end
  end.

(** The listener the content script registers. *)
Definition content_script : Listener Page :=
  content_listener Page page_href page_title
    handleContentAction handleExtensionStateChange.

(** [init], given what the [GET_SETTINGS] request it sends settled with
    ([None] for a reply of [undefined]). *)
Definition init (reply : Outcome (option MessageResponse)) (pg : Page)
  : Page :=
  match reply with
  | Ok (Some response) =>
      if success response
         && truthy (optional_prop (default JUndefined (data response))
                                  "enabled")
      then with_classes (classList_add "extension-active" (body_classes pg))
                        pg
      else pg
  | Ok None => pg
  | Raise _ => pg
  end.

(** What happens in a page after the script is loaded. *)
Inductive PageEvent : Type :=
| Inbound (message : Message) (sender : MessageSender)
| TimerFires (style : nat)
| CloseClicked (container : nat).

Definition run_page_event (pg : Page) (ev : PageEvent) : Page :=
  match ev with
  | Inbound message sender => snd (content_script message sender pg)
  | TimerFires style => timer_fires style pg
  | CloseClicked container => close_clicked container pg
  end.
End ContentPage.

Arguments mkPage {PageContent}.
Arguments page_href {PageContent}.
Arguments page_title {PageContent}.
Arguments page_content {PageContent}.
Arguments body_classes {PageContent}.
Arguments highlight_styles {PageContent}.
Arguments injected_elements {PageContent}.
Arguments next_element {PageContent}.
Arguments pending_removals {PageContent}.
Arguments with_classes {PageContent}.
Arguments removeInjectedElements {PageContent}.
Arguments highlightPage {PageContent}.
Arguments injectElement {PageContent}.
Arguments timer_fires {PageContent}.
Arguments close_clicked {PageContent}.
Arguments handleExtensionStateChange {PageContent}.
Arguments handleContentAction {PageContent}.
Arguments content_script {PageContent}.
Arguments init {PageContent}.
Arguments run_page_event {PageContent}.

(** Every timer that is pending fires. *)
Definition fire_pending_timers {PageContent} (pg : Page PageContent)
  : Page PageContent :=
  foldl (λ p style, timer_fires style p) pg (pending_removals pg).

(** The body carries the class that marks the extension as active. *)
Definition page_active {PageContent} (pg : Page PageContent) : bool :=
  bool_decide ("extension-active" ∈ body_classes pg).

(** A page as the browser hands it to the script: nothing of the script
    in it yet. *)
Definition blank_page : Page unit :=
  mkPage "https://example.org/" "Example" tt ["dark-mode"] [] [] 0 [].

(* ===================================================================== *)
(** * Shapes of responses *)
(* ===================================================================== *)

(** [success] tells what a response carries: no error when it is true, an
    error and no data when it is false. *)
Definition response_well_formed (r : MessageResponse) : bool :=
  if success r
  then bool_decide (error r = None)
  else bool_decide (data r = None) && bool_decide (is_Some (error r)).

Definition is_string (v : JSValue) : bool :=
  match v with
  | JStr _ => true
  | _ => false
  end.

(** [{ url: string; title: string }] *)
Definition is_tab_info (v : JSValue) : bool :=
  match v with
  | JObj o =>
      match o !! "url", o !! "title" with
      | Some u, Some t => is_string u && is_string t
      | _, _ => false
      end
  | _ => false
  end.

Arguments getStorage : simpl never.
Arguments setStorage : simpl never.
Arguments Date_now : simpl never.
Arguments chrome_tabs_query : simpl never.
Arguments chrome_tabs_sendMessage : simpl never.

(* ===================================================================== *)
(** * The message router *)
(* ===================================================================== *)

Example router_answers_get_settings :
  fst (background_listener get_settings_request popup sample_world)
  = (Ok true, [succeeded (Some dark_settings)]).
Proof. reflexivity. Qed.

Example router_answers_get_tab_info :
  fst (background_listener (mkMessage "GET_TAB_INFO" JUndefined)
         (mkSender (Some (mkTab (Some 7%Z) (Some "https://example.org/")
                                None true true)))
         sample_world)
  = (Ok true,
     [succeeded (Some (JObj {[ "url" := JStr "https://example.org/";
                               "title" := JStr "" ]}))]).
Proof. reflexivity. Qed.

Example router_answers_content_action :
  fst (background_listener
         (mkMessage "CONTENT_ACTION"
            (JObj {[ "action" := JStr "getData"; "data" := JNum 5 ]}))
         popup sample_world)
  = (Ok true,
     [succeeded (Some (JObj {[ "success" := JBool true;
                               "result" := JNum 5 ]}))]).
Proof. reflexivity. Qed.

(** A payload that is [undefined] makes the handler reject with the
    TypeError of the property read. *)
Example router_reports_type_error :
  fst (background_listener (mkMessage "TOGGLE_EXTENSION" JUndefined)
         popup sample_world)
  = (Ok true,
     [failure "Cannot read properties of undefined (reading 'enabled')"]).
Proof. reflexivity. Qed.

(** A throw in a handler that is not [async] leaves the listener before the
    promise chain exists: nothing is sent and nothing is returned. *)
Example sync_throw_escapes_listener :
  fst (createMessageHandler {[ "CONTENT_ACTION" := throwing_handler ]}
         (mkMessage "CONTENT_ACTION" JNull) popup sample_world)
  = (Raise (ErrorInstance "boom"), []).
Proof. reflexivity. Qed.

Lemma handler_for_own handlers kind handler :
  handlers !! kind = Some handler → handler_for handlers kind = Some handler.
Proof. intros Hreg. unfold handler_for, Handler, M in *. by rewrite Hreg. Qed.

Lemma handler_for_inherited handlers kind :
  handlers !! kind = None → handler_for handlers kind = Object_prototype kind.
Proof. intros Hreg. unfold handler_for, Handler, M in *. by rewrite Hreg. Qed.

Lemma createMessageHandler_unregistered handlers message sender w :
  handlers !! type message = None →
  Object_prototype (type message) = None →
  createMessageHandler handlers message sender w = ((Ok false, []), w).
Proof.
  intros Hnone Hproto. unfold createMessageHandler.
  by rewrite handler_for_inherited, Hproto.
Qed.

Lemma createMessageHandler_returned handlers message sender w handler x w' :
  handlers !! type message = Some handler →
  handler (payload message) sender w = (Ok x, w') →
  createMessageHandler handlers message sender w
  = ((Ok true,
      match Promise_resolve x with
      | Fulfilled v => [succeeded (Some v)]
      | Rejected e => [failure (error_text e)]
      | Pending => []
      end), w').
Proof.
  intros Hreg Hret. unfold createMessageHandler.
  rewrite (handler_for_own _ _ _ Hreg), Hret.
  by destruct (Promise_resolve x).
Qed.

(** What is inherited from [Object.prototype] returns a plain value or
    throws, and leaves the browser alone. *)
Lemma Object_prototype_call kind builtin body sender w :
  Object_prototype kind = Some builtin →
  (∃ v, builtin body sender w = (Ok (Plain v), w))
  ∨ (∃ e, builtin body sender w = (Raise e, w)).
Proof.
  unfold Object_prototype.
  repeat (case_match; [intros [= <-] |]); [| | | | | done].
  - left. by eexists.
  - left. by eexists.
  - destruct body; (by left; eexists) || (by right; eexists).
  - right. by eexists.
  - right. by eexists.
Qed.

(** A kind without a registered handler leaves the browser as it was,
    also when the table inherits a property of that name. *)
Lemma createMessageHandler_unregistered_world handlers message sender w :
  handlers !! type message = None →
  snd (createMessageHandler handlers message sender w) = w.
Proof.
  intros Hnone. unfold createMessageHandler.
  rewrite handler_for_inherited by done.
  destruct (Object_prototype (type message)) as [builtin |] eqn:Hproto;
    [| done].
  by destruct (Object_prototype_call _ _ (payload message) sender w Hproto)
    as [[v ->] | [e ->]].
Qed.

Lemma content_listener_default
    Page href title action state_change message sender (pg : Page) :
  content_kind (type message) = false →
  content_listener Page href title action state_change message sender pg
  = ((Ok true, [failure "Unknown message type"]), pg).
Proof.
  unfold content_kind, content_listener. intros Hkind.
  apply orb_false_elim in Hkind as [Hkind Hinfo].
  apply orb_false_elim in Hkind as [Haction Hstate].
  by rewrite Haction, Hstate, Hinfo.
Qed.

(** C1, as the code has it: for an inbound message whose kind has no handler in the
    table given to createMessageHandler and is not the name of a property
    the table inherits from Object.prototype, the router calls no handler
    and sends no response; its listener returns false and the browser
    state is untouched.  The response success false, error "Unknown
    message type" is what the listener of the content script sends for
    every kind other than its three. *)
Theorem unregistered_kind_gets_no_response :
  (∀ handlers message sender w,
     handlers !! type message = None →
     Object_prototype (type message) = None →
     createMessageHandler handlers message sender w = ((Ok false, []), w))
  ∧
  (∀ Page href title action state_change message sender (pg : Page),
     content_kind (type message) = false →
     content_listener Page href title action state_change message sender pg
     = ((Ok true, [failure "Unknown message type"]), pg)).
Proof.
  split.
  - apply createMessageHandler_unregistered.
  - apply content_listener_default.
Qed.

Lemma unregistered_kind_gets_no_response_witness :
  createMessageHandler settings_only (mkMessage "GET_TAB_INFO" JUndefined)
    popup sample_world = ((Ok false, []), sample_world)
  ∧
  content_listener unit (λ _, "https://example.org/") (λ _, "Example")
    (λ _ pg, (Ok JNull, pg)) (λ _ pg, (Ok tt, pg))
    (mkMessage "GET_SETTINGS" JUndefined) popup tt
  = ((Ok true, [failure "Unknown message type"]), tt).
Proof.
  split.
  - apply (proj1 unregistered_kind_gets_no_response); reflexivity.
  - apply (proj2 unregistered_kind_gets_no_response). reflexivity.
Defined.

(** A kind that names a property of Object.prototype finds it: toString is
    answered with a success whose data is "[object Undefined]", and
    hasOwnProperty throws out of the listener with nothing sent.  Neither
    is registered in the table. *)
Example inherited_kinds_reach_the_prototype :
  background_handlers !! "toString" = None
  ∧ fst (background_listener (mkMessage "toString" JUndefined) popup
           sample_world)
    = (Ok true, [succeeded (Some (JStr "[object Undefined]"))])
  ∧ background_handlers !! "hasOwnProperty" = None
  ∧ fst (background_listener (mkMessage "hasOwnProperty" JUndefined) popup
           sample_world)
    = (Raise cannot_convert, []).
Proof. split; [| split; [| split]]; reflexivity. Qed.

(** C1 as the spec states it fails: GET_TAB_INFO has no handler in a table
    that registers GET_SETTINGS only, and the router sends nothing for it,
    so not the response "Unknown message type". *)
Lemma unregistered_kind_counterexample :
  settings_only !! "GET_TAB_INFO" = None
  ∧ fst (createMessageHandler settings_only
           (mkMessage "GET_TAB_INFO" JUndefined) popup sample_world)
    = (Ok false, [])
  ∧ snd (fst (createMessageHandler settings_only
                (mkMessage "GET_TAB_INFO" JUndefined) popup sample_world))
    ≠ [failure "Unknown message type"].
Proof. split; [reflexivity | split; [reflexivity | discriminate]]. Qed.

(** C2, as the code has it: for an inbound message whose kind has a registered handler
    that returns (a value or a promise, no throw before it returns), the
    listener returns true, which keeps the reply port open, and sends at
    most one response: exactly one once the handler has settled, with
    success true and the value as data when it completed with a value,
    success false and the message as error when it failed with an Error,
    and success false with error "Unknown error" when it failed with a
    value that is not an Error; none while the promise is pending. *)
Theorem registered_handler_response :
  ∀ handlers message sender w handler x w',
    handlers !! type message = Some handler →
    handler (payload message) sender w = (Ok x, w') →
    ∃ responses,
      createMessageHandler handlers message sender w
      = ((Ok true, responses), w')
      ∧ length responses ≤ 1
      ∧ (∀ v, Promise_resolve x = Fulfilled v →
              responses = [succeeded (Some v)])
      ∧ (∀ m, Promise_resolve x = Rejected (ErrorInstance m) →
              responses = [failure m])
      ∧ (∀ v, Promise_resolve x = Rejected (NonError v) →
              responses = [failure "Unknown error"])
      ∧ (Promise_resolve x = Pending → responses = []).
Proof.
  intros handlers message sender w handler x w' Hreg Hret.
  eexists. split; [by eapply createMessageHandler_returned |].
  destruct (Promise_resolve x) as [v | e |]; simpl;
    repeat split; try lia; try done; by intros ? [= ->].
Qed.

Lemma registered_handler_response_witness :
  ∃ responses,
    createMessageHandler background_handlers get_settings_request popup
      sample_world = ((Ok true, responses), sample_world)
    ∧ length responses ≤ 1
    ∧ (∀ v, Fulfilled dark_settings = Fulfilled v →
            responses = [succeeded (Some v)])
    ∧ (∀ m, Fulfilled dark_settings = Rejected (ErrorInstance m) →
            responses = [failure m])
    ∧ (∀ v, Fulfilled dark_settings = Rejected (NonError v) →
            responses = [failure "Unknown error"])
    ∧ (Fulfilled dark_settings = Pending → responses = []).
Proof.
  apply (registered_handler_response background_handlers
           get_settings_request popup sample_world GET_SETTINGS_handler
           (Promise (Fulfilled dark_settings)) sample_world);
    reflexivity.
Defined.

(** C2 as the spec states it fails: a registered handler that fails with
    an object whose message is "quota exceeded", not an Error instance, is
    answered with the error "Unknown error", not with that message. *)
Lemma registered_handler_counterexample :
  ({[ "CONTENT_ACTION" := rejecting_handler ]} : gmap string Handler)
    !! "CONTENT_ACTION" = Some rejecting_handler
  ∧ fst (rejecting_handler JNull popup sample_world)
    = Ok (Promise (Rejected quota_failure))
  ∧ thrown_message quota_failure = Some "quota exceeded"
  ∧ fst (createMessageHandler {[ "CONTENT_ACTION" := rejecting_handler ]}
           (mkMessage "CONTENT_ACTION" JNull) popup sample_world)
    = (Ok true, [failure "Unknown error"])
  ∧ failure "Unknown error" ≠ failure "quota exceeded".
Proof. do 4 (split; [reflexivity |]). discriminate. Qed.

(* ===================================================================== *)
(** * The settings store *)
(* ===================================================================== *)

Lemma with_storage_id w : with_storage (storage w) w = w.
Proof. by destruct w. Qed.

Lemma with_sent_id w : with_sent (sent w) w = w.
Proof. by destruct w. Qed.

Lemma bind_eq {A B} (m : M A) (k : A → M B) w :
  (m ≫= k) w
  = match m w with
    | (Ok a, w') => k a w'
    | (Raise e, w') => (Raise e, w')
    end.
Proof. reflexivity. Qed.

Lemma mret_eq {A} (a : A) w : (mret a : M A) w = (Ok a, w).
Proof. reflexivity. Qed.

Lemma lift_eq {A} (o : Outcome A) w : lift o w = (o, w).
Proof. reflexivity. Qed.

Lemma Date_now_eq w : Date_now w = (Ok (now w), w).
Proof. reflexivity. Qed.

Lemma getStorage_eq key w :
  getStorage key w = (Ok (default JUndefined (storage w !! key)), w).
Proof.
  unfold getStorage, chrome_storage_local_get. rewrite bind_eq.
  destruct (storage w !! key) as [v |]; cbn.
  - by rewrite lookup_singleton_eq.
  - by rewrite lookup_empty.
Qed.

Lemma setStorage_eq key value w :
  setStorage key value w
  = (Ok tt, with_storage (<[key := value]> (storage w)) w).
Proof.
  unfold setStorage, chrome_storage_local_set.
  by rewrite <- insert_union_singleton_l.
Qed.

Lemma is_settings_defaultSettings : is_settings defaultSettings = true.
Proof. by vm_compute. Qed.

Lemma is_settings_object v :
  is_settings v = true → ∃ o, v = JObj o.
Proof. destruct v; try done. eauto. Qed.

Lemma is_settings_not_nullish v : is_settings v = true → nullish v = false.
Proof. by destruct v. Qed.

(** Runs the storage calls at the head of a computation. *)
Ltac run_store :=
  repeat (rewrite ?bind_eq, ?mret_eq, ?lift_eq, ?Date_now_eq,
                  ?getStorage_eq, ?setStorage_eq;
          cbv beta iota).

Lemma initializeStorage_eq w :
  initializeStorage w
  = (Ok tt, with_storage (initial_store (now w) (storage w)) w).
Proof.
  unfold initializeStorage, initial_store. run_store.
  destruct (truthy (default JUndefined (storage w !! "settings"))) eqn:Hs;
    cbn [negb]; run_store.
  - destruct (truthy (default JUndefined (storage w !! "userData")));
      cbn [negb]; run_store.
    + by rewrite with_storage_id.
    + done.
  - cbn [storage with_storage]. rewrite lookup_insert_ne by done.
    destruct (truthy (default JUndefined (storage w !! "userData")));
      cbn [negb]; run_store; done.
Qed.

Lemma initial_store_settings t s :
  truthy (default JUndefined (initial_store t s !! "settings")) = true.
Proof.
  unfold initial_store.
  destruct (truthy (default JUndefined (s !! "settings"))) eqn:Hs;
    destruct (truthy (default JUndefined (s !! "userData")));
    rewrite ?lookup_insert_ne by done; rewrite ?lookup_insert_eq; done.
Qed.

Lemma initial_store_userData t s :
  truthy (default JUndefined (initial_store t s !! "userData")) = true.
Proof.
  unfold initial_store.
  destruct (truthy (default JUndefined (s !! "settings")));
    destruct (truthy (default JUndefined (s !! "userData"))) eqn:Hu;
    rewrite ?lookup_insert_eq; rewrite ?lookup_insert_ne by done; done.
Qed.

Lemma initial_store_fixed t s :
  truthy (default JUndefined (s !! "settings")) = true →
  truthy (default JUndefined (s !! "userData")) = true →
  initial_store t s = s.
Proof. unfold initial_store. by intros -> ->. Qed.

Lemma initializeStorage_initialized w :
  initialized (snd (initializeStorage w)).
Proof.
  rewrite initializeStorage_eq. split; simpl.
  - apply initial_store_settings.
  - apply initial_store_userData.
Qed.

Lemma initializeStorage_noop w :
  initialized w → initializeStorage w = (Ok tt, w).
Proof.
  intros [Hs Hu]. rewrite initializeStorage_eq.
  by rewrite initial_store_fixed, with_storage_id.
Qed.

Lemma schema_value_truthy v : schema_value v = true → truthy v = true.
Proof. by destruct v. Qed.

(** C5: initializeStorage is idempotent.  From every browser state, a
    second run changes nothing that the first run left, whatever the clock
    shows by then, so the settings record after two runs is the one after
    a single run; a key that is present (with the object StorageSchema
    declares for it) keeps its value, every key other than the two known
    ones is left alone, and an absent known key receives its built-in
    default. *)
Theorem initializeStorage_idempotent :
  (∀ w t,
     initializeStorage (with_now t (snd (initializeStorage w)))
     = (Ok tt, with_now t (snd (initializeStorage w))))
  ∧ (∀ w,
       storage (snd (initializeStorage (snd (initializeStorage w))))
         !! "settings"
       = storage (snd (initializeStorage w)) !! "settings")
  ∧ (∀ w key v,
       storage w !! key = Some v →
       schema_value v = true →
       storage (snd (initializeStorage w)) !! key = Some v)
  ∧ (∀ w key,
       key ≠ "settings" → key ≠ "userData" →
       storage (snd (initializeStorage w)) !! key = storage w !! key)
  ∧ (∀ w,
       storage w !! "settings" = None →
       storage (snd (initializeStorage w)) !! "settings"
       = Some defaultSettings)
  ∧ (∀ w,
       storage w !! "userData" = None →
       storage (snd (initializeStorage w)) !! "userData"
       = Some (JObj {[ "lastVisit" := JNum (now w);
                       "visitCount" := JNum 0 ]})).
Proof.
  split; [| split; [| split; [| split; [| split]]]].
  - intros w t. apply initializeStorage_noop.
    destruct (initializeStorage_initialized w) as [Hs Hu]. by split.
  - intros w.
    by rewrite (initializeStorage_noop (snd (initializeStorage w)))
      by apply initializeStorage_initialized.
  - intros w key v Hkey Hobj. apply schema_value_truthy in Hobj.
    rewrite initializeStorage_eq. cbn [snd storage with_storage].
    unfold initial_store.
    destruct (truthy (default JUndefined (storage w !! "settings"))) eqn:Hs;
      destruct (truthy (default JUndefined (storage w !! "userData")))
        eqn:Hu;
      try done.
    + rewrite lookup_insert_ne; [done |].
      intros <-. rewrite Hkey in Hu. simpl in Hu. congruence.
    + rewrite lookup_insert_ne; [done |].
      intros <-. rewrite Hkey in Hs. simpl in Hs. congruence.
    + rewrite !lookup_insert_ne; [done | |].
      * intros <-. rewrite Hkey in Hs. simpl in Hs. congruence.
      * intros <-. rewrite Hkey in Hu. simpl in Hu. congruence.
  - intros w key Hs Hu.
    rewrite initializeStorage_eq. cbn [snd storage with_storage].
    unfold initial_store.
    destruct (truthy (default JUndefined (storage w !! "settings")));
      destruct (truthy (default JUndefined (storage w !! "userData")));
      by rewrite ?lookup_insert_ne by done.
  - intros w Hnone.
    rewrite initializeStorage_eq. cbn [snd storage with_storage].
    unfold initial_store. rewrite Hnone. cbn [default truthy].
    destruct (truthy (default JUndefined (storage w !! "userData")));
      rewrite ?lookup_insert_ne by done; by rewrite lookup_insert_eq.
  - intros w Hnone.
    rewrite initializeStorage_eq. cbn [snd storage with_storage].
    unfold initial_store. rewrite Hnone. cbn [default truthy].
    by rewrite lookup_insert_eq.
Qed.

Lemma initializeStorage_idempotent_witness :
  storage sample_world !! "settings" = Some dark_settings
  ∧ schema_value dark_settings = true
  ∧ storage (snd (initializeStorage sample_world)) !! "settings"
    = Some dark_settings.
Proof.
  split; [reflexivity | split; [reflexivity |]].
  apply (proj1 (proj2 (proj2 initializeStorage_idempotent))
           sample_world "settings" dark_settings);
    reflexivity.
Defined.

Example initializeStorage_fresh :
  storage (snd (initializeStorage fresh_world))
  = {[ "settings" := defaultSettings;
       "userData" := JObj {[ "lastVisit" := JNum 1700000000000;
                             "visitCount" := JNum 0 ]} ]}.
Proof. by vm_compute. Qed.

(* ===================================================================== *)
(** * The handlers of the background worker *)
(* ===================================================================== *)

Lemma async_eq body w :
  async body w = (Ok (Promise (settle (fst (body w)))), snd (body w)).
Proof. unfold async. by destruct (body w). Qed.

Lemma GET_SETTINGS_handler_eq payload sender w :
  GET_SETTINGS_handler payload sender w
  = (Ok (Promise (Fulfilled (current_settings w))), w).
Proof.
  unfold GET_SETTINGS_handler. rewrite async_eq. by run_store.
Qed.

Lemma UPDATE_SETTINGS_handler_eq payload sender w :
  UPDATE_SETTINGS_handler payload sender w
  = (Ok (Promise (Fulfilled (JObj {[ "success" := JBool true ]}))),
     with_storage
       (<["settings" := spread2 (current_settings w) payload]> (storage w))
       w).
Proof.
  unfold UPDATE_SETTINGS_handler. rewrite async_eq. by run_store.
Qed.

Lemma get_settings_response payload sender w :
  background_listener (mkMessage "GET_SETTINGS" payload) sender w
  = ((Ok true, [succeeded (Some (current_settings w))]), w).
Proof.
  unfold background_listener.
  by rewrite (createMessageHandler_returned background_handlers
                (mkMessage "GET_SETTINGS" payload) sender w
                GET_SETTINGS_handler _ _
                eq_refl (GET_SETTINGS_handler_eq payload sender w)).
Qed.

Lemma update_settings_response payload sender w :
  background_listener (update_settings_request payload) sender w
  = ((Ok true, [succeeded (Some (JObj {[ "success" := JBool true ]}))]),
     with_storage
       (<["settings" := spread2 (current_settings w) payload]> (storage w))
       w).
Proof.
  unfold background_listener.
  by rewrite (createMessageHandler_returned background_handlers
                (update_settings_request payload) sender w
                UPDATE_SETTINGS_handler _ _
                eq_refl (UPDATE_SETTINGS_handler_eq payload sender w)).
Qed.

Lemma current_settings_stored w v :
  storage w !! "settings" = Some v → nullish v = false →
  current_settings w = v.
Proof.
  intros Hv Hn. unfold current_settings, nullish_coalesce.
  rewrite Hv. simpl. by rewrite Hn.
Qed.

Lemma current_settings_absent w :
  storage w !! "settings" = None → current_settings w = defaultSettings.
Proof. intros Hv. unfold current_settings. by rewrite Hv. Qed.

Lemma current_settings_not_nullish w : nullish (current_settings w) = false.
Proof.
  unfold current_settings, nullish_coalesce.
  by destruct (nullish (default JUndefined (storage w !! "settings")))
    eqn:Hn.
Qed.

Lemma update_settings_merge w p :
  ∃ after,
    spread2 (current_settings w) p = JObj after
    ∧ (∀ k v, own_props p !! k = Some v → after !! k = Some v)
    ∧ (∀ k, own_props p !! k = None →
            after !! k = own_props (current_settings w) !! k).
Proof.
  eexists. split; [reflexivity |]. split.
  - intros k v Hk. by apply lookup_union_Some_l.
  - intros k Hk. by apply lookup_union_r.
Qed.

Lemma get_after_update w p sender sender' :
  fst (background_listener get_settings_request sender'
         (snd (background_listener (update_settings_request p) sender w)))
  = (Ok true, [succeeded (Some (spread2 (current_settings w) p))]).
Proof.
  rewrite update_settings_response. cbn [snd].
  unfold get_settings_request. rewrite get_settings_response. cbn [fst].
  by rewrite (current_settings_stored _ (spread2 (current_settings w) p))
    by (cbn [storage with_storage]; by rewrite ?lookup_insert_eq).
Qed.

(** C4: UPDATE_SETTINGS merges the payload over the settings in force (the
    stored record, the defaults without one): after it, GET_SETTINGS
    returns a record that has every field of the payload with the value of
    the payload and every other field with the value GET_SETTINGS returned
    before; the rest of the store is untouched.  With the payload theme
    "dark", the record has theme "dark" and all other fields as before. *)
Theorem update_settings_shallow_merge :
  ∀ w p sender sender',
    let w' := snd (background_listener (update_settings_request p) sender w) in
    fst (background_listener (update_settings_request p) sender w)
    = (Ok true, [succeeded (Some (JObj {[ "success" := JBool true ]}))])
    ∧ fst (background_listener get_settings_request sender' w)
      = (Ok true, [succeeded (Some (current_settings w))])
    ∧ (∃ after,
         fst (background_listener get_settings_request sender' w')
         = (Ok true, [succeeded (Some (JObj after))])
         ∧ storage w' !! "settings" = Some (JObj after)
         ∧ (∀ k v, own_props p !! k = Some v → after !! k = Some v)
         ∧ (∀ k, own_props p !! k = None →
                 after !! k = own_props (current_settings w) !! k)
         ∧ (p = JObj {[ "theme" := JStr "dark" ]} →
            after !! "theme" = Some (JStr "dark")
            ∧ ∀ k, k ≠ "theme" →
                   after !! k = own_props (current_settings w) !! k))
    ∧ (∀ k, k ≠ "settings" → storage w' !! k = storage w !! k).
Proof.
  intros w p sender sender' w'.
  split; [by rewrite update_settings_response |].
  split; [unfold get_settings_request; by rewrite get_settings_response |].
  split.
  - destruct (update_settings_merge w p) as (after & Hafter & Hnew & Hold).
    exists after. split; [| split; [| split; [| split]]]; try done.
    + subst w'. by rewrite get_after_update, Hafter.
    + subst w'. rewrite update_settings_response. cbn [snd storage with_storage].
      by rewrite lookup_insert_eq, Hafter.
    + intros ->. split.
      * apply Hnew. cbn [own_props]. by rewrite lookup_singleton_eq.
      * intros k Hk. apply Hold. cbn [own_props].
        by rewrite lookup_singleton_ne.
  - intros k Hk. subst w'. rewrite update_settings_response.
    cbn [snd storage with_storage]. by rewrite lookup_insert_ne.
Qed.

Lemma update_settings_shallow_merge_witness :
  ∃ after,
    fst (background_listener get_settings_request popup
           (snd (background_listener
                   (update_settings_request (JObj {[ "theme" := JStr "dark" ]}))
                   popup fresh_world)))
    = (Ok true, [succeeded (Some (JObj after))])
    ∧ after !! "theme" = Some (JStr "dark")
    ∧ after !! "enabled" = Some (JBool true)
    ∧ after !! "notifications" = Some (JBool true).
Proof.
  destruct (update_settings_shallow_merge fresh_world
              (JObj {[ "theme" := JStr "dark" ]}) popup popup)
    as (_ & _ & (after & Hget & _ & _ & _ & Hdark) & _).
  destruct (Hdark eq_refl) as [Htheme Hrest].
  exists after. split; [exact Hget |]. split; [exact Htheme |].
  split; rewrite Hrest by done; reflexivity.
Defined.

Lemma current_settings_complete w :
  settings_inv w → is_settings (current_settings w) = true.
Proof.
  unfold settings_inv. intros Hinv.
  destruct (storage w !! "settings") as [v |] eqn:Hv.
  - rewrite (current_settings_stored w v); try done.
    by apply is_settings_not_nullish.
  - rewrite current_settings_absent by done.
    apply is_settings_defaultSettings.
Qed.

(** C10: the GET_SETTINGS handler always answers with a settings record:
    the response is a success whose data is never undefined or null; it is
    the stored record when there is one, the built-in defaults (enabled
    true, theme "system", notifications true) when there is none, also
    right after clearStorage, and a complete record whenever the store
    holds no partial one. *)
Theorem get_settings_never_absent :
  ∀ w payload sender,
    background_listener (mkMessage "GET_SETTINGS" payload) sender w
    = ((Ok true, [succeeded (Some (current_settings w))]), w)
    ∧ nullish (current_settings w) = false
    ∧ absent_result (succeeded (Some (current_settings w))) = false
    ∧ (storage w !! "settings" = None →
       current_settings w
       = JObj {[ "enabled" := JBool true;
                 "theme" := JStr "system";
                 "notifications" := JBool true ]})
    ∧ (∀ v, storage w !! "settings" = Some v → is_settings v = true →
            current_settings w = v)
    ∧ (settings_inv w → is_settings (current_settings w) = true)
    ∧ current_settings (snd (clearStorage w)) = defaultSettings.
Proof.
  intros w payload sender.
  split; [apply get_settings_response |].
  split; [apply current_settings_not_nullish |].
  split.
  { pose proof (current_settings_not_nullish w) as Hn.
    unfold absent_result. cbn [data succeeded].
    by destruct (current_settings w). }
  split; [apply current_settings_absent |].
  split.
  { intros v Hv Hset. apply current_settings_stored; [done |].
    by apply is_settings_not_nullish. }
  split; [apply current_settings_complete | by apply current_settings_absent].
Qed.

Lemma get_settings_never_absent_witness :
  settings_inv sample_world
  ∧ is_settings (current_settings sample_world) = true
  ∧ current_settings sample_world = dark_settings
  ∧ current_settings fresh_world = defaultSettings.
Proof.
  assert (Hinv : settings_inv sample_world) by (by vm_compute).
  split; [exact Hinv |].
  destruct (get_settings_never_absent sample_world JUndefined popup)
    as (_ & _ & _ & _ & Hstored & Hcomplete & _).
  destruct (get_settings_never_absent fresh_world JUndefined popup)
    as (_ & _ & _ & Habsent & _).
  split; [exact (Hcomplete Hinv) |].
  split; [apply Hstored; by vm_compute | apply Habsent; reflexivity].
Defined.

(* ===================================================================== *)
(** * The channel adapters *)
(* ===================================================================== *)

Lemma chrome_tabs_sendMessage_eq tabId message w :
  chrome_tabs_sendMessage tabId message w
  = (transport w tabId message,
     with_sent (sent w ++ [(tabId, message)]) w).
Proof. reflexivity. Qed.

Lemma chrome_tabs_query_eq q w :
  chrome_tabs_query q w = (Ok (select_tabs q (tabs w)), w).
Proof. reflexivity. Qed.

Lemma try_catch_eq {A} (body : M A) handler w :
  try_catch body handler w
  = match body w with
    | (Ok a, w') => (Ok a, w')
    | (Raise e, w') => handler e w'
    end.
Proof. reflexivity. Qed.

Lemma sendToTab_eq tabId kind body w :
  sendToTab tabId kind body w
  = (Ok match transport w tabId (mkMessage kind body) with
        | Ok response => response
        | Raise e => failure (error_text e)
        end,
     with_sent (sent w ++ [(tabId, mkMessage kind body)]) w).
Proof.
  unfold sendToTab. rewrite try_catch_eq, bind_eq, chrome_tabs_sendMessage_eq.
  by destruct (transport w tabId (mkMessage kind body)).
Qed.

(** C9: sendToTab never throws.  Whatever the transport to the tab does,
    the call returns a value: the response of the tab when the transport
    delivers one, and when the transport fails a response with success
    false and as error the message of the failure (or "Unknown error" for a
    failure that is not an Error). *)
Theorem sendToTab_catches_transport_failure :
  ∀ tabId kind body w,
    (∃ response, fst (sendToTab tabId kind body w) = Ok response)
    ∧ (∀ e, fst (sendToTab tabId kind body w) ≠ Raise e)
    ∧ (∀ e, transport w tabId (mkMessage kind body) = Raise e →
            fst (sendToTab tabId kind body w)
            = Ok {| success := false; data := None;
                    error := Some (error_text e) |})
    ∧ (∀ m, transport w tabId (mkMessage kind body)
            = Raise (ErrorInstance m) →
            fst (sendToTab tabId kind body w)
            = Ok {| success := false; data := None; error := Some m |})
    ∧ (∀ response, transport w tabId (mkMessage kind body) = Ok response →
                   fst (sendToTab tabId kind body w) = Ok response).
Proof.
  intros tabId kind body w. rewrite sendToTab_eq. cbn [fst].
  split; [eauto |]. split; [done |].
  split; [by intros e -> |]. split; [by intros m -> | by intros r ->].
Qed.

Lemma sendToTab_catches_transport_failure_witness :
  transport sample_world 4 (mkMessage "CONTENT_ACTION" JNull)
  = Raise (ErrorInstance
      "Could not establish connection. Receiving end does not exist.")
  ∧ fst (sendToTab 4 "CONTENT_ACTION" JNull sample_world)
    = Ok {| success := false; data := None;
            error := Some
              "Could not establish connection. Receiving end does not exist."
         |}.
Proof.
  split; [reflexivity |].
  apply (proj1 (proj2 (proj2 (proj2
           (sendToTab_catches_transport_failure
              4 "CONTENT_ACTION" JNull sample_world))))).
  reflexivity.
Defined.



(** An id of 0 counts as no id for [!tab?.id]. *)
Example sendToActiveTab_id_zero :
  fst (sendToActiveTab "CONTENT_ACTION" JNull
         (mkWorld ∅ [mkTab (Some 0%Z) None None true true]
                  sample_transport 0 []))
  = Ok (failure "No active tab found").
Proof. reflexivity. Qed.

(* ===================================================================== *)
(** * TOGGLE_EXTENSION and its fan-out *)
(* ===================================================================== *)

Lemma with_sent_with_sent l1 l2 w :
  with_sent l2 (with_sent l1 w) = with_sent l2 w.
Proof. reflexivity. Qed.

Lemma notify_tab_eq body enabled tab w :
  get_prop body "enabled" = Ok enabled →
  notify_tab body tab w
  = (Ok tt,
     with_sent (sent w ++ map (λ n, (n, state_changed enabled))
                              (addressable [tab])) w).
Proof.
  intros Hprop. unfold notify_tab, addressable.
  destruct tab as [[n |] url title active current]; cbn.
  - destruct (truthy_num n); cbn.
    + rewrite try_catch_eq. run_store. rewrite Hprop. run_store.
      rewrite chrome_tabs_sendMessage_eq.
      by destruct (transport w n (state_changed enabled)).
    + by rewrite app_nil_r, with_sent_id.
  - by rewrite app_nil_r, with_sent_id.
Qed.

Lemma addressable_cons tab rest :
  addressable (tab :: rest) = addressable [tab] ++ addressable rest.
Proof.
  unfold addressable. destruct tab as [[n |] url title active current]; cbn.
  - by destruct (truthy_num n).
  - done.
Qed.

(** The loop attempts every addressable tab once, in order, whether or not
    the earlier deliveries failed. *)
Lemma fan_out_eq body enabled ts w :
  get_prop body "enabled" = Ok enabled →
  for_of ts (notify_tab body) w
  = (Ok tt,
     with_sent (sent w ++ map (λ n, (n, state_changed enabled))
                              (addressable ts)) w).
Proof.
  intros Hprop. revert w. induction ts as [| tab rest IH]; intros w.
  - cbn. by rewrite app_nil_r, with_sent_id.
  - cbn [for_of]. rewrite bind_eq, (notify_tab_eq body enabled) by done.
    rewrite IH. cbn [sent with_sent]. rewrite with_sent_with_sent.
    by rewrite <- app_assoc, <- map_app, <- addressable_cons.
Qed.

(** The empty query lists every tab. *)
Lemma select_tabs_all ts : select_tabs (mkQuery None None) ts = ts.
Proof. induction ts as [| tab rest IH]; [done |]. cbn. by rewrite IH. Qed.

Lemma TOGGLE_EXTENSION_handler_eq body enabled sender w :
  get_prop body "enabled" = Ok enabled →
  TOGGLE_EXTENSION_handler body sender w
  = (Ok (Promise (Fulfilled (JObj {[ "success" := JBool true ]}))),
     with_sent
       (sent w ++ map (λ n, (n, state_changed enabled))
                      (addressable (tabs w)))
       (with_storage
          (<["settings" :=
               spread_set (current_settings w) "enabled" enabled]>
             (storage w)) w)).
Proof.
  intros Hprop. unfold TOGGLE_EXTENSION_handler. rewrite async_eq.
  run_store. rewrite Hprop. run_store.
  rewrite chrome_tabs_query_eq. run_store.
  rewrite (fan_out_eq body enabled) by done. run_store.
  by rewrite select_tabs_all.
Qed.

Lemma toggle_response body enabled sender w :
  get_prop body "enabled" = Ok enabled →
  background_listener (mkMessage "TOGGLE_EXTENSION" body) sender w
  = ((Ok true, [succeeded (Some (JObj {[ "success" := JBool true ]}))]),
     with_sent
       (sent w ++ map (λ n, (n, state_changed enabled))
                      (addressable (tabs w)))
       (with_storage
          (<["settings" :=
               spread_set (current_settings w) "enabled" enabled]>
             (storage w)) w)).
Proof.
  intros Hprop. unfold background_listener.
  by rewrite (createMessageHandler_returned background_handlers
                (mkMessage "TOGGLE_EXTENSION" body) sender w
                TOGGLE_EXTENSION_handler _ _
                eq_refl (TOGGLE_EXTENSION_handler_eq body enabled sender w
                           Hprop)).
Qed.




(** The end-to-end scenario of the spec: a fresh install, then a toggle to
    disabled.  Tab 4 has no listener and its delivery fails; tab 7 is
    still notified, and the tab without an id is passed over. *)
Example toggle_after_install :
  let installed := snd (onInstalled INSTALL fresh_world) in
  let toggled := background_listener (toggle_request false) popup installed in
  fst toggled
  = (Ok true, [succeeded (Some (JObj {[ "success" := JBool true ]}))])
  ∧ fst (background_listener get_settings_request popup (snd toggled))
    = (Ok true,
       [succeeded (Some (JObj {[ "enabled" := JBool false;
                                 "theme" := JStr "system";
                                 "notifications" := JBool true ]}))])
  ∧ sent (snd toggled)
    = [ (4%Z, state_changed (JBool false));
        (7%Z, state_changed (JBool false)) ].
Proof. split; [by vm_compute | split; by vm_compute]. Qed.

(* ===================================================================== *)
(** * The settings record stays complete *)
(* ===================================================================== *)

Lemma fields_typed_spec o :
  fields_typed o = true ↔ map_Forall (λ k v, settings_field k v = true) o.
Proof. unfold fields_typed. apply bool_decide_eq_true. Qed.

Lemma has_field_spec o k : has_field o k = true ↔ is_Some (o !! k).
Proof. unfold has_field. apply bool_decide_eq_true. Qed.

Lemma is_settings_spec v :
  is_settings v = true ↔
  ∃ o, v = JObj o
       ∧ map_Forall (λ k v, settings_field k v = true) o
       ∧ is_Some (o !! "enabled")
       ∧ is_Some (o !! "theme")
       ∧ is_Some (o !! "notifications").
Proof.
  split.
  - destruct v as [| | | | | o]; try done. cbn.
    rewrite !andb_true_iff, fields_typed_spec, !has_field_spec.
    intros [[[Hall He] Ht] Hn]. by exists o.
  - intros (o & -> & Hall & He & Ht & Hn). cbn.
    by rewrite !andb_true_iff, fields_typed_spec, !has_field_spec.
Qed.

Lemma is_settings_spread2 c p :
  is_settings c = true → is_partial_settings p = true →
  is_settings (spread2 c p) = true.
Proof.
  rewrite !is_settings_spec.
  intros (o & -> & Hall & He & Ht & Hn) Hp.
  destruct p as [| | | | | po]; try done.
  cbn in Hp. apply fields_typed_spec in Hp.
  exists (po ∪ o). split; [done |].
  split; [by apply map_Forall_union_2 |].
  rewrite !lookup_union_is_Some. auto.
Qed.

Lemma is_settings_spread_set c b :
  is_settings c = true →
  is_settings (spread_set c "enabled" (JBool b)) = true.
Proof.
  rewrite !is_settings_spec.
  intros (o & -> & Hall & He & Ht & Hn).
  exists (<["enabled" := JBool b]> o). split; [done |].
  split; [by apply map_Forall_insert_2 |].
  rewrite !lookup_insert_is_Some. auto.
Qed.

Lemma createMessageHandler_world handlers message sender w handler :
  handlers !! type message = Some handler →
  snd (createMessageHandler handlers message sender w)
  = snd (handler (payload message) sender w).
Proof.
  intros Hreg. unfold createMessageHandler.
  rewrite (handler_for_own _ _ _ Hreg).
  destruct (handler (payload message) sender w) as [[x | e] w']; [| done].
  by destruct (Promise_resolve x).
Qed.

Lemma background_handlers_lookup k h :
  background_handlers !! k = Some h →
  (k = "GET_TAB_INFO" ∧ h = GET_TAB_INFO_handler)
  ∨ (k = "GET_SETTINGS" ∧ h = GET_SETTINGS_handler)
  ∨ (k = "UPDATE_SETTINGS" ∧ h = UPDATE_SETTINGS_handler)
  ∨ (k = "TOGGLE_EXTENSION" ∧ h = TOGGLE_EXTENSION_handler)
  ∨ (k = "CONTENT_ACTION" ∧ h = CONTENT_ACTION_handler).
Proof.
  unfold background_handlers, Handler, M. intros Hreg.
  repeat (apply lookup_insert_Some in Hreg as [[<- <-] | [_ Hreg]];
          [by auto 10 |]).
  apply lookup_singleton_Some in Hreg as [<- <-]. by auto 10.
Qed.

Lemma async_settles body w :
  ∃ st w', async body w = (Ok (Promise st), w') ∧ st ≠ Pending.
Proof.
  rewrite async_eq. eexists _, _. split; [done |].
  by destruct (fst (body w)).
Qed.

(** Every handler of the background worker is [async]: it never throws
    before it returns and its promise settles, so each request of a
    registered kind is answered exactly once. *)
Lemma background_listener_one_response message sender w :
  is_Some (background_handlers !! type message) →
  ∃ r w', background_listener message sender w = ((Ok true, [r]), w').
Proof.
  intros [h Hreg].
  assert (∃ st w', h (payload message) sender w = (Ok (Promise st), w')
                   ∧ st ≠ Pending) as (st & w' & Hh & Hst).
  { apply background_handlers_lookup in Hreg
      as [[_ ->] | [[_ ->] | [[_ ->] | [[_ ->] | [_ ->]]]]];
      apply async_settles. }
  unfold background_listener.
  rewrite (createMessageHandler_returned _ _ _ _ h _ _ Hreg Hh).
  cbn [Promise_resolve]. destruct st; [eauto | eauto | done].
Qed.

Lemma GET_TAB_INFO_handler_world body sender w :
  snd (GET_TAB_INFO_handler body sender w) = w.
Proof. unfold GET_TAB_INFO_handler. by rewrite async_eq. Qed.

Lemma CONTENT_ACTION_handler_world body sender w :
  snd (CONTENT_ACTION_handler body sender w) = w.
Proof.
  unfold CONTENT_ACTION_handler. rewrite async_eq. run_store.
  by destruct (get_prop body "data").
Qed.

Lemma is_toggle_payload_enabled body :
  is_toggle_payload body = true →
  ∃ b, get_prop body "enabled" = Ok (JBool b).
Proof.
  destruct body as [| | | | | o]; try done. cbn.
  destruct (o !! "enabled") as [[| | b | | |] |]; try done. eauto.
Qed.

Lemma settings_inv_insert w v :
  is_settings v = true →
  settings_inv (with_storage (<["settings" := v]> (storage w)) w).
Proof.
  intros Hv. unfold settings_inv. cbn [storage with_storage].
  by rewrite lookup_insert_eq.
Qed.

Lemma settings_inv_with_sent w l :
  settings_inv w → settings_inv (with_sent l w).
Proof. done. Qed.

Lemma initializeStorage_settings w :
  storage (snd (initializeStorage w)) !! "settings"
  = if truthy (default JUndefined (storage w !! "settings"))
    then storage w !! "settings"
    else Some defaultSettings.
Proof.
  rewrite initializeStorage_eq. cbn [snd storage with_storage].
  unfold initial_store.
  destruct (truthy (default JUndefined (storage w !! "settings")));
    destruct (truthy (default JUndefined (storage w !! "userData")));
    rewrite ?lookup_insert_ne by done; by rewrite ?lookup_insert_eq.
Qed.

Lemma settings_inv_initializeStorage w :
  settings_inv w → settings_inv (snd (initializeStorage w)).
Proof.
  unfold settings_inv. intros Hinv. rewrite initializeStorage_settings.
  destruct (truthy (default JUndefined (storage w !! "settings")));
    [done | apply is_settings_defaultSettings].
Qed.

Lemma run_request_preserves message sender w :
  op_typed (Request message sender) = true →
  settings_inv w →
  settings_inv (snd (background_listener message sender w)).
Proof.
  intros Htyped Hinv. unfold background_listener.
  destruct (background_handlers !! type message) as [h |] eqn:Hreg.
  - rewrite (createMessageHandler_world _ _ _ _ h Hreg).
    destruct message as [kind body]. cbn [type payload] in *.
    apply background_handlers_lookup in Hreg
      as [[-> ->] | [[-> ->] | [[-> ->] | [[-> ->] | [-> ->]]]]].
    + by rewrite GET_TAB_INFO_handler_world.
    + by rewrite GET_SETTINGS_handler_eq.
    + rewrite UPDATE_SETTINGS_handler_eq. cbn [snd].
      apply settings_inv_insert, is_settings_spread2; [| done].
      by apply current_settings_complete.
    + cbn in Htyped.
      destruct (is_toggle_payload_enabled body Htyped) as [b Hb].
      rewrite (TOGGLE_EXTENSION_handler_eq body (JBool b)) by done.
      cbn [snd]. apply settings_inv_with_sent, settings_inv_insert.
      by apply is_settings_spread_set, current_settings_complete.
    + by rewrite CONTENT_ACTION_handler_world.
  - by rewrite createMessageHandler_unregistered_world.
Qed.

Lemma run_op_preserves w op :
  op_typed op = true → settings_inv w → settings_inv (run_op w op).
Proof.
  intros Htyped Hinv.
  destruct op as [message sender | reason | | key value | key |];
    cbn [run_op].
  - by apply run_request_preserves.
  - destruct reason; cbn [onInstalled]; try done.
    by apply settings_inv_initializeStorage.
  - by apply settings_inv_initializeStorage.
  - rewrite setStorage_eq. cbn [snd]. cbn [op_typed] in Htyped.
    destruct (String.eqb key "settings") eqn:Hkey.
    + apply String.eqb_eq in Hkey as ->. by apply settings_inv_insert.
    + apply String.eqb_neq in Hkey.
      unfold settings_inv in *. cbn [storage with_storage].
      by rewrite lookup_insert_ne.
  - unfold settings_inv in *. cbn.
    destruct (decide (key = "settings")) as [-> | Hne].
    + by rewrite lookup_delete_eq.
    + by rewrite lookup_delete_ne.
  - unfold settings_inv. cbn. by rewrite lookup_empty.
Qed.

(** C7: the stored settings record is absent or complete, and stays so.
    The empty store has no record; every operation that type-checks (a
    request to the background worker, an install or startup event, a
    setStorage, removeStorage or clearStorage call) takes a store whose
    settings record is absent or has exactly the three fields enabled,
    theme and notifications, each of its declared type, to a store of the
    same kind; so does every sequence of such operations. *)
Theorem settings_record_stays_complete :
  (∀ w, storage w = ∅ → settings_inv w)
  ∧ (∀ w op,
       op_typed op = true → settings_inv w → settings_inv (run_op w op))
  ∧ (∀ ops w,
       Forall (λ op, op_typed op = true) ops →
       settings_inv w → settings_inv (foldl run_op w ops)).
Proof.
  split; [| split].
  - intros w Hempty. unfold settings_inv. by rewrite Hempty, lookup_empty.
  - apply run_op_preserves.
  - intros ops. induction ops as [| op rest IH]; intros w Hall Hinv.
    + done.
    + apply Forall_cons in Hall as [Hop Hrest]. cbn [foldl].
      apply IH; [done |]. by apply run_op_preserves.
Qed.

Lemma settings_record_stays_complete_witness :
  settings_inv
    (foldl run_op fresh_world
       [ Request (update_settings_request (JObj {[ "theme" := JStr "dark" ]}))
                 popup;
         Request (toggle_request false) popup;
         StoreClear;
         Startup ]).
Proof.
  apply (proj2 (proj2 settings_record_stays_complete)).
  - repeat constructor.
  - apply (proj1 settings_record_stays_complete). reflexivity.
Defined.

(** A payload the type checker rejects is merged all the same: the check
    is static, the handler does none. *)
Example update_settings_untyped_payload :
  is_partial_settings (JObj {[ "theme" := JStr "blue" ]}) = false
  ∧ storage (snd (background_listener
                    (update_settings_request (JObj {[ "theme" := JStr "blue" ]}))
                    popup fresh_world)) !! "settings"
    = Some (JObj {[ "enabled" := JBool true;
                    "theme" := JStr "blue";
                    "notifications" := JBool true ]}).
Proof. split; by vm_compute. Qed.

(* ===================================================================== *)
(** * More on the storage module *)
(* ===================================================================== *)

Lemma removeStorage_eq key w :
  removeStorage key w = (Ok tt, with_storage (delete key (storage w)) w).
Proof. reflexivity. Qed.

(** X1: what setStorage wrote is what getStorage reads back; the other
    keys read as before; and a second write under the same key replaces
    the first wholesale, as if the first had not happened. *)
Theorem setStorage_getStorage_round_trip :
  ∀ key value w,
    fst (getStorage key (snd (setStorage key value w))) = Ok value
    ∧ (∀ other, other ≠ key →
         fst (getStorage other (snd (setStorage key value w)))
         = fst (getStorage other w))
    ∧ (∀ old,
         snd (setStorage key value (snd (setStorage key old w)))
         = snd (setStorage key value w)).
Proof.
  intros key value w. rewrite !setStorage_eq. cbn [snd].
  split; [| split].
  - rewrite getStorage_eq. cbn [fst storage with_storage].
    by rewrite lookup_insert_eq.
  - intros other Hne. rewrite !getStorage_eq. cbn [fst storage with_storage].
    by rewrite lookup_insert_ne.
  - intros old. rewrite !setStorage_eq. cbn [snd storage with_storage].
    unfold with_storage. cbn. by rewrite insert_insert_eq.
Qed.

Lemma setStorage_getStorage_round_trip_witness :
  fst (getStorage "userData"
         (snd (setStorage "settings" defaultSettings fresh_world)))
  = fst (getStorage "userData" fresh_world).
Proof.
  apply (proj1 (proj2 (setStorage_getStorage_round_trip
                         "settings" defaultSettings fresh_world))).
  done.
Defined.

(** X2: after removeStorage a key reads as undefined and the other keys
    read as before; removing a key that is not stored changes nothing, and
    removing a key right after it was first written restores the store. *)
Theorem removeStorage_forgets_key :
  ∀ key w,
    fst (getStorage key (snd (removeStorage key w))) = Ok JUndefined
    ∧ (∀ other, other ≠ key →
         fst (getStorage other (snd (removeStorage key w)))
         = fst (getStorage other w))
    ∧ (storage w !! key = None → removeStorage key w = (Ok tt, w))
    ∧ (∀ value, storage w !! key = None →
         snd (removeStorage key (snd (setStorage key value w))) = w).
Proof.
  intros key w. rewrite !removeStorage_eq. cbn [snd].
  split; [| split; [| split]].
  - rewrite getStorage_eq. cbn [fst storage with_storage].
    by rewrite lookup_delete_eq.
  - intros other Hne. rewrite !getStorage_eq. cbn [fst storage with_storage].
    by rewrite lookup_delete_ne.
  - intros Hnone. by rewrite delete_id, with_storage_id.
  - intros value Hnone. rewrite setStorage_eq, removeStorage_eq.
    cbn [snd storage with_storage]. unfold with_storage. cbn.
    rewrite delete_insert_eq, delete_id by done. by destruct w.
Qed.

Lemma removeStorage_forgets_key_witness :
  removeStorage "userData" sample_world = (Ok tt, sample_world)
  ∧ snd (removeStorage "settings"
           (snd (setStorage "settings" defaultSettings fresh_world)))
    = fresh_world.
Proof.
  split.
  - apply (proj1 (proj2 (proj2 (removeStorage_forgets_key
                                  "userData" sample_world)))).
    reflexivity.
  - apply (proj2 (proj2 (proj2 (removeStorage_forgets_key
                                  "settings" fresh_world)))).
    reflexivity.
Defined.

(** X3: initializeStorage cannot be seen through GET_SETTINGS.  When the
    stored settings are absent or an object, the request is answered the
    same before and after initializeStorage: the defaults the handler
    falls back to are the defaults initializeStorage writes. *)
Theorem initializeStorage_unseen_by_get_settings :
  ∀ w body sender,
    (∀ v, storage w !! "settings" = Some v → schema_value v = true) →
    fst (background_listener (mkMessage "GET_SETTINGS" body) sender
           (snd (initializeStorage w)))
    = fst (background_listener (mkMessage "GET_SETTINGS" body) sender w).
Proof.
  intros w body sender Htyped. rewrite !get_settings_response. cbn [fst].
  do 3 f_equal. unfold current_settings.
  rewrite initializeStorage_settings.
  destruct (storage w !! "settings") as [v |] eqn:Hv; [| done].
  cbn [default from_option id].
  by rewrite (schema_value_truthy v (Htyped v eq_refl)).
Qed.

Lemma initializeStorage_unseen_by_get_settings_witness :
  fst (background_listener get_settings_request popup
         (snd (initializeStorage fresh_world)))
  = fst (background_listener get_settings_request popup fresh_world).
Proof.
  apply (initializeStorage_unseen_by_get_settings fresh_world JUndefined
           popup).
  intros v Hv. discriminate Hv.
Defined.

(** A stored value that is falsy without being null or undefined shows the
    difference the hypothesis excludes. *)
Example initializeStorage_seen_on_falsy_value :
  let w := with_storage {[ "settings" := JBool false ]} fresh_world in
  snd (fst (background_listener get_settings_request popup w))
  = [succeeded (Some (JBool false))]
  ∧ snd (fst (background_listener get_settings_request popup
                (snd (initializeStorage w))))
    = [succeeded (Some defaultSettings)].
Proof. split; reflexivity. Qed.

(* ===================================================================== *)
(** * More on the messaging module *)
(* ===================================================================== *)

(** X4: sendToBackground never throws.  Whatever value
    chrome.runtime.sendMessage resolves with is returned as it is, so a
    reply of undefined (no listener answered) comes back as undefined, not
    as a failure; a rejection is caught and becomes the value success
    false with the message of the failure ("Unknown error" for a failure
    that is not an Error) as error.  The browser changes only through the
    host call. *)
Theorem sendToBackground_never_throws :
  ∀ (runtime : Message → M JSValue) kind body w,
    (∀ e, fst (sendToBackground runtime kind body w) ≠ Raise e)
    ∧ snd (sendToBackground runtime kind body w)
      = snd (runtime (mkMessage kind body) w)
    ∧ (∀ v, fst (runtime (mkMessage kind body) w) = Ok v →
            fst (sendToBackground runtime kind body w) = Ok v)
    ∧ (∀ e, fst (runtime (mkMessage kind body) w) = Raise e →
            fst (sendToBackground runtime kind body w)
            = Ok (JObj {[ "success" := JBool false;
                          "error" := JStr (error_text e) ]})).
Proof.
  intros runtime kind body w. unfold sendToBackground.
  rewrite try_catch_eq, bind_eq.
  destruct (runtime (mkMessage kind body) w) as [[v | e] w']; cbn.
  - split; [done |]. split; [done |]. split; [by intros ? [= ->] | done].
  - split; [done |]. split; [done |]. split; [done |].
    intros ? [= <-]. unfold response_value. cbn.
    by rewrite (left_id_L ∅ (∪)).
Qed.

Lemma sendToBackground_never_throws_witness :
  fst (sendToBackground (λ _ w, (Ok JUndefined, w)) "GET_SETTINGS"
         JUndefined sample_world)
  = Ok JUndefined
  ∧ fst (sendToBackground
           (λ _ w, (Raise (ErrorInstance "Extension context invalidated."),
                    w))
           "GET_SETTINGS" JUndefined sample_world)
    = Ok (JObj {[ "success" := JBool false;
                  "error" := JStr "Extension context invalidated." ]}).
Proof.
  split.
  - apply (proj1 (proj2 (proj2
             (sendToBackground_never_throws (λ _ w, (Ok JUndefined, w))
                "GET_SETTINGS" JUndefined sample_world)))).
    reflexivity.
  - apply (proj2 (proj2 (proj2
             (sendToBackground_never_throws
                (λ _ w,
                   (Raise (ErrorInstance "Extension context invalidated."),
                    w))
                "GET_SETTINGS" JUndefined sample_world)))
             (ErrorInstance "Extension context invalidated.")).
    reflexivity.
Defined.

(** X5: sendToTab makes one attempt, delivered or not: the log of
    attempts grows by exactly the message to that tab, and the store, the
    tab list and the clock stay as they were.  There is no retry. *)
Theorem sendToTab_single_attempt :
  ∀ tabId kind body w,
    sent (snd (sendToTab tabId kind body w))
    = sent w ++ [(tabId, mkMessage kind body)]
    ∧ storage (snd (sendToTab tabId kind body w)) = storage w
    ∧ tabs (snd (sendToTab tabId kind body w)) = tabs w
    ∧ now (snd (sendToTab tabId kind body w)) = now w.
Proof. intros tabId kind body w. by rewrite sendToTab_eq. Qed.

Lemma elem_of_select_tabs q (ts : list Tab) tab :
  tab ∈ select_tabs q ts → tab ∈ ts ∧ tab_matches q tab = true.
Proof.
  induction ts as [| t rest IH]; cbn; [by intros ?%elem_of_nil |].
  destruct (tab_matches q t) eqn:Hm.
  - intros [-> | Hin]%elem_of_cons.
    + split; [left | done].
    + destruct (IH Hin). split; [by right | done].
  - intros Hin. destruct (IH Hin). split; [by right | done].
Qed.

(** X6: sendToActiveTab sends at most one message, and only to a tab of
    the tab list that is active and in the current window; a tab that is
    not both never receives anything from it. *)
Theorem sendToActiveTab_destination :
  ∀ kind body w,
    sent (snd (sendToActiveTab kind body w)) = sent w
    ∨ ∃ n tab,
        sent (snd (sendToActiveTab kind body w))
        = sent w ++ [(n, mkMessage kind body)]
        ∧ tab ∈ tabs w
        ∧ tab_id tab = Some n
        ∧ tab_active tab = true
        ∧ tab_currentWindow tab = true.
Proof.
  intros kind body w. unfold sendToActiveTab.
  rewrite bind_eq, chrome_tabs_query_eq. cbv beta iota.
  destruct (select_tabs (mkQuery (Some true) (Some true)) (tabs w))
    as [| tab rest] eqn:Hsel; [by left |].
  unfold first_tab_id. cbn [head mbind option_bind].
  destruct (tab_id tab) as [n |] eqn:Hid; [| by left].
  destruct (truthy_num n); cbn [negb]; [| by left].
  right. exists n, tab. rewrite sendToTab_eq. cbn [snd sent with_sent].
  split; [done |].
  destruct (elem_of_select_tabs (mkQuery (Some true) (Some true))
              (tabs w) tab) as [Hin Hmatch].
  { rewrite Hsel. by left. }
  unfold tab_matches in Hmatch. cbn in Hmatch.
  apply andb_true_iff in Hmatch as [Ha Hc].
  split; [done |]. split; [done |].
  by destruct (tab_active tab), (tab_currentWindow tab).
Qed.

(** X7: the listener of createMessageHandler, for every table and every
    handler, also one that throws: it sends at most one response; a
    response it sends with success true carries no error, one with
    success false carries an error and no data; and it returns false
    exactly when the kind has no registered handler and names no property
    that the table inherits from Object.prototype. *)
Theorem router_responses_well_formed :
  ∀ handlers message sender w,
    length (snd (fst (createMessageHandler handlers message sender w))) ≤ 1
    ∧ Forall (λ r, response_well_formed r = true)
             (snd (fst (createMessageHandler handlers message sender w)))
    ∧ (fst (fst (createMessageHandler handlers message sender w)) = Ok false
       ↔ handlers !! type message = None
         ∧ Object_prototype (type message) = None).
Proof.
  intros handlers message sender w. unfold createMessageHandler.
  destruct (handler_for handlers (type message)) as [handler |] eqn:Hfor.
  - assert (Hsome : ¬ (handlers !! type message = None
                       ∧ Object_prototype (type message) = None)).
    { intros [Hown Hproto].
      rewrite handler_for_inherited, Hproto in Hfor by done. done. }
    destruct (handler (payload message) sender w) as [[x | e] w'].
    + destruct (Promise_resolve x) as [v | e |]; cbn;
        (split; [lia |]); (split; [repeat constructor |]);
        (split; [done | by intros ?]).
    + cbn. split; [lia |]. split; [constructor |].
      split; [done | by intros ?].
  - cbn. split; [lia |]. split; [constructor |]. split; [| done].
    intros _. unfold handler_for, Handler, M in *.
    by destruct (handlers !! type message).
Qed.

(* ===================================================================== *)
(** * More on the handlers of the background worker *)
(* ===================================================================== *)

Lemma TOGGLE_EXTENSION_handler_rejects body e sender w :
  get_prop body "enabled" = Raise e →
  TOGGLE_EXTENSION_handler body sender w = (Ok (Promise (Rejected e)), w).
Proof.
  intros Hprop. unfold TOGGLE_EXTENSION_handler. rewrite async_eq.
  run_store. rewrite Hprop. by run_store.
Qed.


Lemma get_prop_nullish body k :
  nullish body = true → ∃ text, get_prop body k = Raise (ErrorInstance text).
Proof. destruct body; try done; cbn; eauto. Qed.

Lemma TOGGLE_EXTENSION_handler_world body sender w :
  ∃ s l,
    snd (TOGGLE_EXTENSION_handler body sender w)
    = with_sent l (with_storage s w)
    ∧ ∀ key, key ≠ "settings" → s !! key = storage w !! key.
Proof.
  destruct (get_prop body "enabled") as [enabled | e] eqn:Hprop.
  - rewrite (TOGGLE_EXTENSION_handler_eq body enabled) by done.
    eexists _, _. split; [done |]. intros key Hkey.
    by rewrite lookup_insert_ne.
  - rewrite (TOGGLE_EXTENSION_handler_rejects body e) by done.
    exists (storage w), (sent w). cbn [snd].
    by rewrite with_storage_id, with_sent_id.
Qed.

Lemma background_request_unchanged message sender w :
  type message ≠ "UPDATE_SETTINGS" →
  type message ≠ "TOGGLE_EXTENSION" →
  snd (background_listener message sender w) = w.
Proof.
  intros Hupdate Htoggle. unfold background_listener.
  destruct (background_handlers !! type message) as [h |] eqn:Hreg.
  - rewrite (createMessageHandler_world _ _ _ _ h Hreg).
    apply background_handlers_lookup in Hreg
      as [[Hk ->] | [[Hk ->] | [[Hk ->] | [[Hk ->] | [Hk ->]]]]];
      try done;
      by rewrite ?GET_TAB_INFO_handler_world, ?GET_SETTINGS_handler_eq,
        ?CONTENT_ACTION_handler_world.
  - by rewrite createMessageHandler_unregistered_world.
Qed.

Lemma get_prop_not_nullish body k :
  nullish body = false → ∃ v, get_prop body k = Ok v.
Proof. destruct body; try done; cbn; eauto. Qed.

(** X8: what a request to the background worker can change.  No request
    changes the tab list, the transport or the clock, nor any key of the
    store other than settings; only TOGGLE_EXTENSION sends messages to
    tabs; and a request of any kind other than UPDATE_SETTINGS and
    TOGGLE_EXTENSION, registered or not, leaves the browser exactly as it
    was. *)
Theorem requests_change_only_settings :
  ∀ message sender w,
    tabs (snd (background_listener message sender w)) = tabs w
    ∧ now (snd (background_listener message sender w)) = now w
    ∧ transport (snd (background_listener message sender w)) = transport w
    ∧ (∀ key, key ≠ "settings" →
         storage (snd (background_listener message sender w)) !! key
         = storage w !! key)
    ∧ (type message ≠ "TOGGLE_EXTENSION" →
       sent (snd (background_listener message sender w)) = sent w)
    ∧ (type message ≠ "UPDATE_SETTINGS" →
       type message ≠ "TOGGLE_EXTENSION" →
       snd (background_listener message sender w) = w).
Proof.
  intros message sender w. unfold background_listener.
  destruct (background_handlers !! type message) as [h |] eqn:Hreg.
  - rewrite (createMessageHandler_world _ _ _ _ h Hreg).
    apply background_handlers_lookup in Hreg
      as [[Hk ->] | [[Hk ->] | [[Hk ->] | [[Hk ->] | [Hk ->]]]]].
    + by rewrite GET_TAB_INFO_handler_world.
    + by rewrite GET_SETTINGS_handler_eq.
    + rewrite UPDATE_SETTINGS_handler_eq. cbn [snd].
      repeat split; try done.
      intros key Hkey. cbn. by rewrite lookup_insert_ne.
    + destruct (TOGGLE_EXTENSION_handler_world (payload message) sender w)
        as (s & l & -> & Hframe).
      by repeat split.
    + by rewrite CONTENT_ACTION_handler_world.
  - by rewrite createMessageHandler_unregistered_world.
Qed.

Lemma requests_change_only_settings_witness :
  snd (background_listener (mkMessage "CONTENT_ACTION" JNull) popup
         sample_world) = sample_world
  ∧ sent (snd (background_listener
                 (update_settings_request (JObj {[ "theme" := JStr "light" ]}))
                 popup sample_world)) = sent sample_world.
Proof.
  split.
  - apply (requests_change_only_settings
             (mkMessage "CONTENT_ACTION" JNull) popup sample_world); done.
  - apply (requests_change_only_settings
             (update_settings_request (JObj {[ "theme" := JStr "light" ]}))
             popup sample_world); done.
Defined.



(** X10: on the store, TOGGLE_EXTENSION with enabled b is UPDATE_SETTINGS
    with the payload enabled b: both leave the same store, whatever it
    held before. *)
Theorem toggle_stores_like_update :
  ∀ w b sender,
    storage (snd (background_listener (toggle_request b) sender w))
    = storage (snd (background_listener
                      (update_settings_request
                         (JObj {[ "enabled" := JBool b ]}))
                      sender w)).
Proof.
  intros w b sender. unfold toggle_request.
  rewrite (toggle_response _ (JBool b)) by done.
  rewrite update_settings_response. cbn [snd storage with_sent with_storage].
  unfold spread_set, spread2. cbn [own_props].
  by rewrite (insert_union_singleton_l (own_props (current_settings w))).
Qed.

Lemma current_settings_after_write w v :
  nullish v = false →
  current_settings (with_storage (<["settings" := v]> (storage w)) w) = v.
Proof.
  intros Hv. apply current_settings_stored; [| done].
  cbn. by rewrite lookup_insert_eq.
Qed.

(** X11: partial updates accumulate.  Two UPDATE_SETTINGS requests in a
    row leave the browser as one request does whose payload is the first
    payload with the second spread over it, so the later payload wins on a
    field both name; the same request sent twice is as good as sent
    once. *)
Theorem updates_accumulate :
  ∀ w p1 p2 sender,
    snd (background_listener (update_settings_request p2) sender
           (snd (background_listener (update_settings_request p1) sender w)))
    = snd (background_listener (update_settings_request (spread2 p1 p2))
             sender w)
    ∧ snd (background_listener (update_settings_request p1) sender
             (snd (background_listener (update_settings_request p1) sender
                     w)))
      = snd (background_listener (update_settings_request p1) sender w).
Proof.
  intros w p1 p2 sender.
  assert (Hstep : ∀ p q,
    snd (background_listener (update_settings_request q) sender
           (snd (background_listener (update_settings_request p) sender w)))
    = with_storage
        (<["settings" := JObj (own_props q ∪ (own_props p
                                              ∪ own_props (current_settings w)))]>
           (storage w)) w).
  { intros p q. rewrite !update_settings_response. cbn [snd].
    rewrite current_settings_after_write by done.
    unfold with_storage, spread2. cbn. by rewrite insert_insert_eq. }
  split.
  - rewrite Hstep, update_settings_response. cbn [snd].
    unfold spread2. cbn [own_props]. by rewrite (assoc_L (∪)).
  - rewrite Hstep, update_settings_response. cbn [snd].
    unfold spread2. by rewrite (assoc_L (∪)), (idemp_L (∪)).
Qed.

(** X12: TOGGLE_EXTENSION does not look at the old value.  When the
    stored record already has enabled b, a request with enabled b leaves
    the store as it was and still sends the notification to every tab
    that has an id. *)
Theorem toggle_to_same_value_still_notifies :
  ∀ w o b sender,
    storage w !! "settings" = Some (JObj o) →
    o !! "enabled" = Some (JBool b) →
    storage (snd (background_listener (toggle_request b) sender w))
    = storage w
    ∧ sent (snd (background_listener (toggle_request b) sender w))
      = sent w ++ map (λ n, (n, state_changed (JBool b)))
                      (addressable (tabs w)).
Proof.
  intros w o b sender Hstored Henabled. unfold toggle_request.
  rewrite (toggle_response _ (JBool b)) by done.
  cbn [snd storage sent with_sent with_storage]. split; [| done].
  rewrite (current_settings_stored w (JObj o)) by done.
  unfold spread_set. cbn [own_props].
  by rewrite (insert_id o), (insert_id (storage w)).
Qed.

Lemma toggle_to_same_value_still_notifies_witness :
  storage (snd (background_listener (toggle_request false) popup
                  sample_world))
  = storage sample_world
  ∧ sent (snd (background_listener (toggle_request false) popup
                 sample_world))
    = sent sample_world
      ++ map (λ n, (n, state_changed (JBool false)))
             (addressable (tabs sample_world)).
Proof.
  apply (toggle_to_same_value_still_notifies sample_world
           {[ "enabled" := JBool false;
              "theme" := JStr "dark";
              "notifications" := JBool true ]} false popup);
    reflexivity.
Defined.

(** X13: GET_TAB_INFO is answered from the sender alone: always one
    successful response whose data has a string url and a string title,
    those of the tab the message came from, each the empty string when
    the sender has no tab (the popup) or the tab lacks the field; the
    payload and the browser state play no part and nothing changes. *)
Theorem get_tab_info_describes_sender :
  ∀ body sender w,
    ∃ info,
      background_listener (mkMessage "GET_TAB_INFO" body) sender w
      = ((Ok true, [succeeded (Some info)]), w)
      ∧ is_tab_info info = true
      ∧ (sender_tab sender = None →
         info = JObj {[ "url" := JStr ""; "title" := JStr "" ]})
      ∧ (∀ tab, sender_tab sender = Some tab →
           info = JObj {[ "url" := JStr (default "" (tab_url tab));
                          "title" := JStr (default "" (tab_title tab)) ]}).
Proof.
  intros body sender w. eexists. split; [reflexivity |].
  split; [by vm_compute |].
  split; [by intros -> | by intros tab ->].
Qed.

Lemma get_tab_info_describes_sender_witness :
  ∃ info,
    background_listener (mkMessage "GET_TAB_INFO" JUndefined) popup
      sample_world
    = ((Ok true, [succeeded (Some info)]), sample_world)
    ∧ info = JObj {[ "url" := JStr ""; "title" := JStr "" ]}.
Proof.
  destruct (get_tab_info_describes_sender JUndefined popup sample_world)
    as (info & Hrun & _ & Hnone & _).
  exists info. split; [exact Hrun | apply Hnone; reflexivity].
Defined.



(** C3, as the code has it: after clearStorage, getAllStorage returns the empty
    mapping and getStorage("settings") returns undefined.  The record
    stays absent across every request other than UPDATE_SETTINGS and
    TOGGLE_EXTENSION, and across a TOGGLE_EXTENSION whose payload is
    undefined or null; initializeStorage, every UPDATE_SETTINGS request
    and a TOGGLE_EXTENSION request with any other payload write a
    settings record.  A GET_SETTINGS request handled while the store is
    empty does not report an absent record: it answers with the built-in
    defaults and leaves the store empty. *)
Theorem clear_then_get_settings :
  ∀ w,
    let cleared := snd (clearStorage w) in
    fst (getAllStorage cleared) = Ok ∅
    ∧ fst (getStorage "settings" cleared) = Ok JUndefined
    ∧ (∀ payload sender,
         background_listener (mkMessage "GET_SETTINGS" payload) sender cleared
         = ((Ok true, [succeeded (Some defaultSettings)]), cleared))
    ∧ (∀ message sender,
         type message ≠ "UPDATE_SETTINGS" →
         type message ≠ "TOGGLE_EXTENSION" →
         snd (background_listener message sender cleared) = cleared)
    ∧ (∀ body sender,
         nullish body = true →
         snd (background_listener (mkMessage "TOGGLE_EXTENSION" body)
                sender cleared) = cleared)
    ∧ fst (getStorage "settings" (snd (initializeStorage cleared)))
      = Ok defaultSettings
    ∧ (∀ p sender,
         fst (getStorage "settings"
                (snd (background_listener (update_settings_request p)
                        sender cleared)))
         = Ok (spread2 defaultSettings p))
    ∧ (∀ b sender,
         fst (getStorage "settings"
                (snd (background_listener (toggle_request b) sender
                        cleared)))
         = Ok (JObj {[ "enabled" := JBool b;
                       "theme" := JStr "system";
                       "notifications" := JBool true ]}))
    ∧ (∀ body sender,
         nullish body = false →
         ∃ record,
           fst (getStorage "settings"
                  (snd (background_listener
                          (mkMessage "TOGGLE_EXTENSION" body) sender
                          cleared)))
           = Ok (JObj record)).
Proof.
  intros w cleared.
  assert (Hempty : storage cleared = ∅) by done.
  assert (Hcur : current_settings cleared = defaultSettings)
    by (apply current_settings_absent; by rewrite Hempty).
  split; [done |].
  split; [by rewrite getStorage_eq, Hempty |].
  split; [intros; by rewrite get_settings_response, Hcur |].
  split; [intros; by apply background_request_unchanged |].
  split.
  { intros body sender Hnull.
    destruct (get_prop_nullish body "enabled" Hnull) as [text Hprop].
    unfold background_listener.
    by rewrite (createMessageHandler_returned background_handlers
                  (mkMessage "TOGGLE_EXTENSION" body) sender cleared
                  TOGGLE_EXTENSION_handler _ _ eq_refl
                  (TOGGLE_EXTENSION_handler_rejects body _ sender cleared
                     Hprop)). }
  split.
  { rewrite getStorage_eq, initializeStorage_eq.
    cbn [fst snd storage with_storage]. rewrite Hempty.
    by vm_compute. }
  split.
  { intros p sender. rewrite getStorage_eq, update_settings_response.
    cbn [fst snd storage with_storage].
    by rewrite lookup_insert_eq, Hcur. }
  split.
  { intros b sender. unfold toggle_request.
    rewrite getStorage_eq, (toggle_response _ (JBool b)) by done.
    cbn [fst snd storage with_sent with_storage].
    rewrite lookup_insert_eq, Hcur. cbn [default from_option id].
    unfold spread_set, defaultSettings. cbn [own_props].
    by rewrite insert_insert_eq. }
  intros body sender Hvalue.
  destruct (get_prop_not_nullish body "enabled" Hvalue) as [enabled Hprop].
  rewrite getStorage_eq, (toggle_response _ enabled) by done.
  cbn [fst snd storage with_sent with_storage].
  rewrite lookup_insert_eq. by eexists.
Qed.

Lemma clear_then_get_settings_witness :
  snd (background_listener (mkMessage "CONTENT_ACTION" JNull) popup
         (snd (clearStorage sample_world)))
  = snd (clearStorage sample_world)
  ∧ snd (background_listener (mkMessage "TOGGLE_EXTENSION" JUndefined) popup
           (snd (clearStorage sample_world)))
    = snd (clearStorage sample_world)
  ∧ ∃ record,
      fst (getStorage "settings"
             (snd (background_listener
                     (mkMessage "TOGGLE_EXTENSION"
                        (JObj {[ "enabled" := JBool false ]}))
                     popup (snd (clearStorage sample_world)))))
      = Ok (JObj record).
Proof.
  destruct (clear_then_get_settings sample_world)
    as (_ & _ & _ & Hother & Hnull & _ & _ & _ & Hvalue).
  split; [by apply Hother |].
  split; [by apply Hnull | by apply Hvalue].
Defined.

(** C3 as the spec states it fails: after clearStorage on a store that
    held a settings record, getAllStorage is empty, and the GET_SETTINGS
    request that follows is answered with the default record, which is not
    an absent result. *)
Lemma get_settings_after_clear_counterexample :
  fst (getAllStorage (snd (clearStorage sample_world))) = Ok ∅
  ∧ snd (fst (background_listener get_settings_request popup
                (snd (clearStorage sample_world))))
    = [succeeded (Some defaultSettings)]
  ∧ absent_result (succeeded (Some defaultSettings)) = false.
Proof. split; [reflexivity | split; reflexivity]. Qed.



(* ===================================================================== *)
(** * The content script and its page *)
(* ===================================================================== *)

Section ContentPageFacts.
Context {PageContent : Type}.
Variable getPageData : Page PageContent → JSValue.

Lemma content_action_eq body sender (pg : Page PageContent) :
  content_script getPageData (mkMessage "CONTENT_ACTION" body) sender pg
  = match handleContentAction getPageData body pg with
    | (Ok result, pg') => ((Ok true, [succeeded (Some result)]), pg')
    | (Raise e, pg') => ((Raise e, []), pg')
    end.
Proof. reflexivity. Qed.

Lemma state_changed_eq body sender (pg : Page PageContent) :
  content_script getPageData (mkMessage "EXTENSION_STATE_CHANGED" body)
    sender pg
  = match get_prop body "enabled" with
    | Ok enabled =>
        ((Ok true, [succeeded None]),
         snd (handleExtensionStateChange enabled pg))
    | Raise e => ((Raise e, []), pg)
    end.
Proof.
  unfold content_script, content_listener. cbn.
  destruct (get_prop body "enabled") as [enabled | e]; [| done].
  unfold handleExtensionStateChange. by destruct (truthy enabled).
Qed.

Lemma page_active_add (pg : Page PageContent) :
  page_active
    (with_classes (classList_add "extension-active" (body_classes pg)) pg)
  = true.
Proof.
  unfold page_active, classList_add. cbn. apply bool_decide_eq_true.
  case_bool_decide; [done |]. apply elem_of_app. right. by left.
Qed.

Lemma page_active_remove (pg : Page PageContent) :
  page_active
    (removeInjectedElements
       (with_classes (classList_remove "extension-active" (body_classes pg))
                     pg))
  = false.
Proof.
  unfold page_active, classList_remove. cbn. apply bool_decide_eq_false.
  rewrite list_elem_of_filter. by intros [? ?].
Qed.

(** X16: a CONTENT_ACTION whose action is none of highlight, getData and
    inject (or is missing, or is not a string) is not an error for the
    content script: it answers success true with data null and leaves the
    page as it is. *)
Theorem content_unknown_action_answers_null :
  ∀ o sender (pg : Page PageContent),
    (∀ a, o !! "action" = Some (JStr a) →
          a ≠ "highlight" ∧ a ≠ "getData" ∧ a ≠ "inject") →
    content_script getPageData (mkMessage "CONTENT_ACTION" (JObj o)) sender pg
    = ((Ok true, [succeeded (Some JNull)]), pg).
Proof.
  intros o sender pg Hother. rewrite content_action_eq.
  unfold handleContentAction. cbn [get_prop].
  destruct (o !! "action") as [[| | | | a |] |]; try done. cbn.
  destruct (Hother a eq_refl) as (Hh & Hg & Hi).
  apply String.eqb_neq in Hh, Hg, Hi. by rewrite Hh, Hg, Hi.
Qed.

(** X17: the listener of the content script does not guard its property
    reads.  A CONTENT_ACTION or EXTENSION_STATE_CHANGED message whose
    payload is undefined or null makes the listener throw the TypeError:
    no response is sent, true is not returned, the page is unchanged. *)
Theorem content_script_throws_without_payload :
  ∀ body sender (pg : Page PageContent),
    nullish body = true →
    (∃ text,
       content_script getPageData (mkMessage "CONTENT_ACTION" body) sender pg
       = ((Raise (ErrorInstance text), []), pg))
    ∧ (∃ text,
         content_script getPageData
           (mkMessage "EXTENSION_STATE_CHANGED" body) sender pg
         = ((Raise (ErrorInstance text), []), pg)).
Proof.
  intros body sender pg Hnull. split.
  - destruct (get_prop_nullish body "action" Hnull) as [text Hprop].
    exists text. rewrite content_action_eq. unfold handleContentAction.
    by rewrite Hprop.
  - destruct (get_prop_nullish body "enabled" Hnull) as [text Hprop].
    exists text. by rewrite state_changed_eq, Hprop.
Qed.

(** X18: EXTENSION_STATE_CHANGED with an object payload is answered with
    success true and no data.  With a truthy enabled the body gets the
    class extension-active (once) and the injected elements stay; with a
    falsy or missing enabled the class goes, and so do the first injected
    container and the first highlight style, and only those.  The other
    classes of the body are kept either way. *)
Theorem state_change_switches_page :
  ∀ o sender (pg : Page PageContent),
    let enabled := default JUndefined (o !! "enabled") in
    let result :=
      content_script getPageData
        (mkMessage "EXTENSION_STATE_CHANGED" (JObj o)) sender pg in
    fst result = (Ok true, [succeeded None])
    ∧ page_active (snd result) = truthy enabled
    ∧ (∀ c, c ≠ "extension-active" →
            c ∈ body_classes (snd result) ↔ c ∈ body_classes pg)
    ∧ (truthy enabled = true →
       injected_elements (snd result) = injected_elements pg
       ∧ highlight_styles (snd result) = highlight_styles pg)
    ∧ (truthy enabled = false →
       injected_elements (snd result) = tail (injected_elements pg)
       ∧ highlight_styles (snd result) = tail (highlight_styles pg)).
Proof.
  intros o sender pg enabled result. subst result.
  rewrite state_changed_eq. cbn [get_prop fst snd]. fold enabled.
  unfold handleExtensionStateChange.
  destruct (truthy enabled) eqn:Htruthy; cbn [snd].
  - split; [done |]. split; [apply page_active_add |].
    split; [| by split].
    intros c Hc. cbn. unfold classList_add. case_bool_decide; [done |].
    rewrite elem_of_app, list_elem_of_singleton.
    split; [by intros [Hin | ->] | by left].
  - split; [done |]. split; [apply page_active_remove |].
    split; [| by split].
    intros c Hc. cbn. unfold classList_remove.
    rewrite list_elem_of_filter. split; [by intros [_ Hin] | by split].
Qed.

Lemma handleContentAction_injected body (pg : Page PageContent) :
  injected_elements (snd (handleContentAction getPageData body pg))
  = injected_elements pg
  ∨ injected_elements (snd (handleContentAction getPageData body pg))
    = tail (injected_elements pg) ++ [next_element pg].
Proof.
  unfold handleContentAction.
  destruct (get_prop body "action") as [[| | | | a |] | e]; try by left.
  destruct (String.eqb a "highlight"); [by left |].
  destruct (String.eqb a "getData"); [by left |].
  destruct (String.eqb a "inject"); [by right | by left].
Qed.

Lemma run_page_event_injected (pg : Page PageContent) ev :
  length (injected_elements pg) ≤ 1 →
  length (injected_elements (run_page_event getPageData pg ev)) ≤ 1.
Proof.
  intros Hone.
  assert (Htail : length (tail (injected_elements pg)) = 0)
    by (destruct (injected_elements pg) as [| c [| c' rest]];
        cbn in *; lia).
  destruct ev as [[kind body] sender | style | container];
    cbn [run_page_event].
  - unfold content_script, content_listener. cbn [type payload].
    destruct (String.eqb kind "CONTENT_ACTION").
    { pose proof (handleContentAction_injected body pg) as Hinj.
      destruct (handleContentAction getPageData body pg) as [[r | e] pg'];
        cbn [snd] in *;
        destruct Hinj as [-> | ->]; rewrite ?length_app, ?Htail; cbn; lia. }
    destruct (String.eqb kind "EXTENSION_STATE_CHANGED").
    { destruct (get_prop body "enabled") as [enabled | e]; [| done].
      unfold handleExtensionStateChange.
      destruct (truthy enabled); cbn; [done | lia]. }
    by destruct (String.eqb kind "GET_TAB_INFO").
  - done.
  - cbn. etrans; [apply length_filter | done].
Qed.

(** X19: a page never holds two injected containers.  From a page with at
    most one, every message to the content script, every timer and every
    click on a close button leads to a page with at most one, so does
    every sequence of them; and an inject action leaves exactly one, the
    container it has just made, having removed the one before. *)
Theorem at_most_one_injected_element :
  (∀ events (pg : Page PageContent),
     length (injected_elements pg) ≤ 1 →
     length (injected_elements (foldl (run_page_event getPageData) pg events))
     ≤ 1)
  ∧ (∀ o sender (pg : Page PageContent),
       length (injected_elements pg) ≤ 1 →
       o !! "action" = Some (JStr "inject") →
       content_script getPageData (mkMessage "CONTENT_ACTION" (JObj o))
         sender pg
       = ((Ok true, [succeeded (Some (JObj {[ "injected" := JBool true ]}))]),
          injectElement pg)
       ∧ injected_elements (injectElement pg) = [next_element pg]).
Proof.
  split.
  - intros events. induction events as [| ev rest IH]; intros pg Hone.
    + done.
    + cbn [foldl]. by apply IH, run_page_event_injected.
  - intros o sender pg Hone Haction. rewrite content_action_eq.
    unfold handleContentAction. cbn [get_prop]. rewrite Haction. cbn.
    split; [done |].
    by destruct (injected_elements pg) as [| c [| c' rest]];
      cbn in *; [| | lia].
Qed.

(** X20: an inject action also takes the first highlight style out of the
    document, because it starts with removeInjectedElements, and a
    highlight action adds a style without removing the one before, so two
    highlight actions in a row leave two styles in the document. *)
Theorem inject_and_highlight_side_effects :
  (∀ pg : Page PageContent,
     highlight_styles (injectElement pg) = tail (highlight_styles pg))
  ∧ (∀ pg : Page PageContent,
       highlight_styles (highlightPage (highlightPage pg))
       = highlight_styles pg ++ [next_element pg; S (next_element pg)])
  ∧ (∀ o sender (pg : Page PageContent),
       o !! "action" = Some (JStr "highlight") →
       content_script getPageData (mkMessage "CONTENT_ACTION" (JObj o))
         sender pg
       = ((Ok true,
           [succeeded (Some (JObj {[ "highlighted" := JBool true ]}))]),
          highlightPage pg)).
Proof.
  split; [done |]. split.
  - intros pg. cbn. by rewrite <- app_assoc.
  - intros o sender pg Haction. rewrite content_action_eq.
    unfold handleContentAction. cbn [get_prop]. by rewrite Haction.
Qed.

Lemma timers_fire_styles (pg : Page PageContent) fired s :
  s ∈ highlight_styles (foldl (λ p style, timer_fires style p) pg fired)
  ↔ s ∈ highlight_styles pg ∧ s ∉ fired.
Proof.
  revert pg. induction fired as [| style rest IH]; intros pg.
  - cbn. split; [intros Hs; split; [done | apply not_elem_of_nil] |].
    by intros [Hs _].
  - cbn [foldl]. rewrite IH. cbn [highlight_styles timer_fires].
    rewrite list_elem_of_filter, not_elem_of_cons. tauto.
Qed.

Lemma run_page_event_pending (pg : Page PageContent) ev :
  highlight_styles pg ⊆ pending_removals pg →
  highlight_styles (run_page_event getPageData pg ev)
  ⊆ pending_removals (run_page_event getPageData pg ev).
Proof.
  intros Hsub.
  assert (Htail : tail (highlight_styles pg) ⊆ pending_removals pg).
  { intros s Hs. apply Hsub. destruct (highlight_styles pg); [done |].
    by right. }
  destruct ev as [[kind body] sender | style | container];
    cbn [run_page_event].
  - unfold content_script, content_listener. cbn [type payload].
    destruct (String.eqb kind "CONTENT_ACTION").
    { unfold handleContentAction.
      destruct (get_prop body "action") as [[| | | | a |] | e]; try done.
      destruct (String.eqb a "highlight").
      { cbn. intros s. rewrite !elem_of_app. intros [Hs | Hs]; [| by right].
        left. by apply Hsub. }
      destruct (String.eqb a "getData"); [done |].
      by destruct (String.eqb a "inject"). }
    destruct (String.eqb kind "EXTENSION_STATE_CHANGED").
    { destruct (get_prop body "enabled") as [enabled | e]; [| done].
      unfold handleExtensionStateChange. by destruct (truthy enabled). }
    by destruct (String.eqb kind "GET_TAB_INFO").
  - cbn. intros s. rewrite !list_elem_of_filter.
    intros [Hne Hs]. split; [done | by apply Hsub].
  - done.
Qed.

(** X21: a highlight does not outlast its timer.  Every highlight style
    that is in the document has its removal pending, in the page the
    script starts in and after every message, timer and click; so once
    the pending timers have fired no highlight style is left. *)
Theorem highlight_ends_with_its_timer :
  (∀ events (pg : Page PageContent),
     highlight_styles pg ⊆ pending_removals pg →
     highlight_styles (foldl (run_page_event getPageData) pg events)
     ⊆ pending_removals (foldl (run_page_event getPageData) pg events))
  ∧ (∀ pg : Page PageContent,
       highlight_styles pg ⊆ pending_removals pg →
       highlight_styles (fire_pending_timers pg) = []).
Proof.
  split.
  - intros events. induction events as [| ev rest IH]; intros pg Hsub.
    + done.
    + cbn [foldl]. by apply IH, run_page_event_pending.
  - intros pg Hsub. unfold fire_pending_timers.
    apply elem_of_nil_inv. intros s Hs.
    apply timers_fire_styles in Hs as [Hin Hout]. by apply Hout, Hsub.
Qed.
End ContentPageFacts.

(** A page with a highlight and an injected container in it. *)
Example page_after_highlight_and_inject :
  snd (content_script (λ _ : Page unit, JNull)
         (mkMessage "CONTENT_ACTION" (JObj {[ "action" := JStr "inject" ]}))
         popup
         (snd (content_script (λ _ : Page unit, JNull)
                 (mkMessage "CONTENT_ACTION"
                    (JObj {[ "action" := JStr "highlight" ]}))
                 popup
                 (highlightPage blank_page))))
  = mkPage "https://example.org/" "Example" tt ["dark-mode"] [1] [2] 3 [0; 1].
Proof. reflexivity. Qed.

Lemma content_unknown_action_answers_null_witness :
  content_script (λ _ : Page unit, JNull)
    (mkMessage "CONTENT_ACTION" (JObj {[ "action" := JStr "reload" ]}))
    popup blank_page
  = ((Ok true, [succeeded (Some JNull)]), blank_page).
Proof.
  apply (content_unknown_action_answers_null (λ _ : Page unit, JNull)
           {[ "action" := JStr "reload" ]} popup blank_page).
  intros a Ha. apply lookup_singleton_Some in Ha as [_ [= <-]].
  by repeat split.
Defined.

Lemma content_script_throws_without_payload_witness :
  ∃ text,
    content_script (λ _ : Page unit, JNull)
      (mkMessage "EXTENSION_STATE_CHANGED" JUndefined) popup blank_page
    = ((Raise (ErrorInstance text), []), blank_page).
Proof.
  apply (proj2 (content_script_throws_without_payload
                  (λ _ : Page unit, JNull) JUndefined popup blank_page
                  eq_refl)).
Defined.

Lemma state_change_switches_page_witness :
  injected_elements
    (snd (content_script (λ _ : Page unit, JNull)
            (mkMessage "EXTENSION_STATE_CHANGED"
               (JObj {[ "enabled" := JBool false ]}))
            popup (mkPage "u" "t" tt ["extension-active"] [3] [5] 6 [3])))
  = []
  ∧ highlight_styles
      (snd (content_script (λ _ : Page unit, JNull)
              (mkMessage "EXTENSION_STATE_CHANGED"
                 (JObj {[ "enabled" := JBool false ]}))
              popup (mkPage "u" "t" tt ["extension-active"] [3] [5] 6 [3])))
    = [].
Proof.
  apply (proj2 (proj2 (proj2 (proj2
           (state_change_switches_page (λ _ : Page unit, JNull)
              {[ "enabled" := JBool false ]} popup
              (mkPage "u" "t" tt ["extension-active"] [3] [5] 6 [3])))))).
  reflexivity.
Defined.

Lemma at_most_one_injected_element_witness :
  length (injected_elements
            (foldl (run_page_event (λ _ : Page unit, JNull)) blank_page
               [ Inbound (mkMessage "CONTENT_ACTION"
                            (JObj {[ "action" := JStr "inject" ]})) popup;
                 Inbound (mkMessage "CONTENT_ACTION"
                            (JObj {[ "action" := JStr "inject" ]})) popup;
                 CloseClicked 0 ]))
  ≤ 1.
Proof.
  apply (proj1 (at_most_one_injected_element (λ _ : Page unit, JNull))).
  cbn. lia.
Defined.

Lemma inject_and_highlight_side_effects_witness :
  content_script (λ _ : Page unit, JNull)
    (mkMessage "CONTENT_ACTION" (JObj {[ "action" := JStr "highlight" ]}))
    popup blank_page
  = ((Ok true, [succeeded (Some (JObj {[ "highlighted" := JBool true ]}))]),
     highlightPage blank_page).
Proof.
  apply (proj2 (proj2 (inject_and_highlight_side_effects
                         (λ _ : Page unit, JNull)))).
  reflexivity.
Defined.

Lemma highlight_ends_with_its_timer_witness :
  highlight_styles
    (fire_pending_timers (highlightPage (highlightPage blank_page)))
  = [].
Proof.
  apply (proj2 (highlight_ends_with_its_timer (λ _ : Page unit, JNull))).
  cbn. done.
Defined.

(** X22: the notification of the fan-out is one the content script
    understands.  Every message a TOGGLE_EXTENSION request with enabled b
    sends to a tab is answered by the content script there with success
    true, never with "Unknown message type" and never with an exception,
    and leaves the body of that page with the class extension-active
    exactly when b is true; one such message goes out per tab that has an
    id. *)
Theorem toggle_notification_switches_pages :
  ∀ PageContent (getPageData : Page PageContent → JSValue) w b sender,
    ∃ new,
      sent (snd (background_listener (toggle_request b) sender w))
      = sent w ++ new
      ∧ length new = length (addressable (tabs w))
      ∧ ∀ n message, (n, message) ∈ new →
          ∀ sender' (pg : Page PageContent),
            fst (content_script getPageData message sender' pg)
            = (Ok true, [succeeded None])
            ∧ page_active (snd (content_script getPageData message
                                  sender' pg)) = b.
Proof.
  intros PageContent getPageData w b sender.
  exists (map (λ n, (n, state_changed (JBool b))) (addressable (tabs w))).
  unfold toggle_request. rewrite (toggle_response _ (JBool b)) by done.
  split; [done |]. split; [apply length_map |].
  intros n message Hin sender' pg.
  apply list_elem_of_In, in_map_iff in Hin as (n' & [= _ <-] & _).
  unfold state_changed. rewrite state_changed_eq. cbn [get_prop].
  rewrite lookup_singleton_eq. cbn [default from_option id fst snd].
  split; [done |]. unfold handleExtensionStateChange.
  destruct b; cbn [truthy snd].
  - apply page_active_add.
  - apply page_active_remove.
Qed.

Lemma toggle_notification_switches_pages_witness :
  fst (content_script (λ _ : Page unit, JNull)
         (state_changed (JBool false)) popup blank_page)
  = (Ok true, [succeeded None])
  ∧ page_active (snd (content_script (λ _ : Page unit, JNull)
                        (state_changed (JBool false)) popup blank_page))
    = false.
Proof.
  destruct (toggle_notification_switches_pages unit (λ _, JNull)
              sample_world false popup) as (new & Hsent & _ & Hall).
  apply (Hall 7%Z).
  assert (Hnew : new = [ (4%Z, state_changed (JBool false));
                         (7%Z, state_changed (JBool false)) ]).
  { revert Hsent. unfold toggle_request.
    rewrite (toggle_response _ (JBool false)) by done.
    cbn [snd sent with_sent with_storage]. intros Hsent.
    by apply app_inv_head in Hsent as <-. }
  rewrite Hnew. right. left.
Defined.

(** X23: how the content script starts.  init leaves the page alone when
    its GET_SETTINGS request is rejected, is answered with undefined or is
    answered with a failure response.  Answered by the background worker,
    it gives the body the class extension-active when the settings in
    force have enabled true and changes nothing when they have enabled
    false; with no settings stored, so with the defaults, the page starts
    active. *)
Theorem init_follows_settings :
  ∀ PageContent (pg : Page PageContent),
    (∀ e, init (Raise e) pg = pg)
    ∧ init (Ok None) pg = pg
    ∧ (∀ text, init (Ok (Some (failure text))) pg = pg)
    ∧ (∀ w sender,
         ∃ r,
           snd (fst (background_listener get_settings_request sender w))
           = [r]
           ∧ (∀ o enabled,
                current_settings w = JObj o →
                o !! "enabled" = Some (JBool enabled) →
                page_active (init (Ok (Some r)) pg)
                = page_active pg || enabled)
           ∧ (storage w !! "settings" = None →
              page_active (init (Ok (Some r)) pg) = true)).
Proof.
  intros PageContent pg.
  split; [done |]. split; [done |]. split; [done |].
  intros w sender. exists (succeeded (Some (current_settings w))).
  unfold get_settings_request. rewrite get_settings_response.
  split; [done |].
  assert (Hrun : ∀ o enabled,
    current_settings w = JObj o →
    o !! "enabled" = Some (JBool enabled) →
    page_active (init (Ok (Some (succeeded (Some (current_settings w))))) pg)
    = page_active pg || enabled).
  { intros o enabled Hcur Henabled. unfold init. cbn [success data succeeded].
    rewrite Hcur. unfold optional_prop. cbn. rewrite Henabled. cbn.
    destruct enabled.
    - by rewrite page_active_add, orb_true_r.
    - by rewrite orb_false_r. }
  split; [exact Hrun |].
  intros Hnone.
  rewrite (Hrun {[ "enabled" := JBool true;
                   "theme" := JStr "system";
                   "notifications" := JBool true ]} true).
  - apply orb_true_r.
  - by apply current_settings_absent.
  - reflexivity.
Qed.

Lemma init_follows_settings_witness :
  ∃ r,
    snd (fst (background_listener get_settings_request popup fresh_world))
    = [r]
    ∧ page_active (init (Ok (Some r)) blank_page) = true.
Proof.
  destruct (init_follows_settings unit blank_page)
    as (_ & _ & _ & Hanswered).
  destruct (Hanswered fresh_world popup) as (r & Hr & _ & Hdefault).
  exists r. split; [exact Hr | apply Hdefault; reflexivity].
Defined.
